(** * Amap-Weather: the city resolver and the response normaliser of
      [src/main.py], embedded as executable Rocq definitions.

    Python values are modelled as the code sees them: a [str] is a sequence
    of Unicode code points, a [dict] is an insertion-ordered association
    list, the result of [get_weather] is the [dict] literal the code builds.
    The three things the function reads from outside (the environment
    variable, the CSV file, the HTTP endpoint) are gathered in a [world];
    the two effects it performs (loading the table, one HTTP GET) are
    recorded in a trace. *)

From Stdlib Require Import List String Ascii NArith ZArith QArith Bool Lia.
Import ListNotations.

#[local] Open Scope list_scope.
#[local] Open Scope N_scope.

(* ================================================================== *)
(** ** Python strings *)

Module PyStr.

(** A code point. *)
Definition char := N.

(** A Python [str]. *)
Definition str := list char.

Definition char_eqb (a b : char) : bool := N.eqb a b.

Fixpoint eqb (s t : str) : bool :=
  match s, t with
  | [], [] => true
  | a :: s', b :: t' => char_eqb a b && eqb s' t'
  | _, _ => false
  end.

(** Reading a source literal: the file is UTF-8, so a literal is decoded
    byte by byte.  [need] counts the continuation bytes still expected and
    [acc] holds the bits read so far. *)
Fixpoint utf8_go (s : string) (need : nat) (acc : N) : str :=
  match s with
  | EmptyString => []
  | String a rest =>
      let b := N_of_ascii a in
      match need with
      | O =>
          if b <? 128 then b :: utf8_go rest 0 0
          else if b <? 224 then utf8_go rest 1 (b - 192)
          else if b <? 240 then utf8_go rest 2 (b - 224)
          else utf8_go rest 3 (b - 240)
      | S O => (acc * 64 + (b - 128)) :: utf8_go rest 0 0
      | S n => utf8_go rest n (acc * 64 + (b - 128))
      end
  end.

Definition lit (s : string) : str := utf8_go s 0 0.

(** [c in chars] for a single character. *)
Definition mem (c : char) (chars : str) : bool := existsb (char_eqb c) chars.

Fixpoint lstrip (chars s : str) : str :=
  match s with
  | [] => []
  | c :: s' => if mem c chars then lstrip chars s' else s
  end.

(** [s.rstrip(chars)]: drop the longest tail made of characters of
    [chars]. *)
Definition rstrip (chars s : str) : str := rev (lstrip chars (rev s)).

(** [s.startswith(p)]. *)
Fixpoint startswith (p s : str) : bool :=
  match p, s with
  | [], _ => true
  | _ :: _, [] => false
  | a :: p', b :: s' => char_eqb a b && startswith p' s'
  end.

(** [p in s] for two strings: [p] occurs in [s] as a contiguous block. *)
Fixpoint contains (p s : str) : bool :=
  startswith p s ||
  match s with
  | [] => false
  | _ :: s' => contains p s'
  end.

(** [sep.join(parts)]. *)
Fixpoint join (sep : str) (parts : list str) : str :=
  match parts with
  | [] => []
  | [p] => p
  | p :: rest => p ++ sep ++ join sep rest
  end.

(** [s[:n]]. *)
Definition slice_to (n : nat) (s : str) : str := firstn n s.

(** [not s]. *)
Definition is_empty (s : str) : bool :=
  match s with [] => true | _ => false end.

End PyStr.

Import PyStr.

(* ================================================================== *)
(** ** Python values and dictionaries *)

(** The values that reach the code: the two arguments of [get_weather]
    and whatever [response.json()] decodes.  A [float] is kept as the
    rational it denotes; the code only ever tests it for zero. *)
#[warnings="-register-all"]
Inductive pyval : Type :=
| PNone
| PBool (b : bool)
| PInt (z : Z)
| PFloat (q : Q)
| PStr (s : str)
| PList (l : list pyval)
| PDict (d : list (str * pyval)).

(** An insertion-ordered [dict] with [str] keys. *)
Definition dict (V : Type) : Type := list (str * V).

Definition pydict : Type := dict pyval.

Section Dict.
Context {V : Type}.

(** [d.get(k)] *)
Fixpoint dict_get (d : dict V) (k : str) : option V :=
  match d with
  | [] => None
  | (k', v) :: d' => if eqb k' k then Some v else dict_get d' k
  end.

(** [d[k] = v]: a key already present keeps its place. *)
Fixpoint dict_set (d : dict V) (k : str) (v : V) : dict V :=
  match d with
  | [] => [(k, v)]
  | (k', v') :: d' =>
      if eqb k' k then (k', v) :: d' else (k', v') :: dict_set d' k v
  end.

(** [d.keys()] *)
Definition dict_keys (d : dict V) : list str := map fst d.

(** [k in d] *)
Definition dict_mem (d : dict V) (k : str) : bool :=
  match dict_get d k with Some _ => true | None => false end.

(** [not d] *)
Definition dict_is_empty (d : dict V) : bool :=
  match d with [] => true | _ => false end.
End Dict.

(** [bool(v)] *)
Definition truthy (v : pyval) : bool :=
  match v with
  | PNone => false
  | PBool b => b
  | PInt z => negb (Z.eqb z 0)
  | PFloat q => negb (Z.eqb (Qnum q) 0)
  | PStr s => negb (is_empty s)
  | PList l => match l with [] => false | _ => true end
  | PDict d => match d with [] => false | _ => true end
  end.

(** [isinstance(v, str)] *)
Definition isinstance_str (v : pyval) : bool :=
  match v with PStr _ => true | _ => false end.

(** [v == s] for a string literal [s]. *)
Definition py_eq_str (v : pyval) (s : str) : bool :=
  match v with PStr t => eqb t s | _ => false end.

(** [v in [s1, s2, ...]] for a list of string literals. *)
Definition py_in_strs (v : pyval) (l : list str) : bool :=
  existsb (py_eq_str v) l.

(** The text of a value known to be a [str]. *)
Definition str_of (v : pyval) : str :=
  match v with PStr s => s | _ => [] end.

(** [type(v).__name__] *)
Definition type_name (v : pyval) : str :=
  match v with
  | PNone => lit "NoneType"
  | PBool _ => lit "bool"
  | PInt _ => lit "int"
  | PFloat _ => lit "float"
  | PStr _ => lit "str"
  | PList _ => lit "list"
  | PDict _ => lit "dict"
  end.

(** Truth of an optional string, as in [if not adcode] where [adcode] is
    [None] or a [str]. *)
Definition truthy_opt (o : option str) : bool :=
  match o with Some s => negb (is_empty s) | None => false end.

(** The text of an optional string known not to be [None]. *)
Definition opt_str (o : option str) : str :=
  match o with Some s => s | None => [] end.

(* ================================================================== *)
(** ** The outside world, exceptions and the effect trace *)

(** The exception classes [get_weather] tells apart, each with [str(e)]. *)
Inductive exn : Type :=
| Timeout (msg : str)            (* requests.exceptions.Timeout *)
| RequestException (msg : str)   (* any other RequestException *)
| OtherException (msg : str).    (* any other Exception *)

(** A row as [csv.DictReader] yields it: column name to field; a field is
    [None] when the row is short. *)
Definition csv_row : Type := dict (option str).

Record request : Type := mk_request {
  req_url : str;
  req_params : pydict;
  req_timeout : N
}.

(** A [requests.Response], by the two methods the code calls on it. *)
Record response : Type := mk_response {
  raise_for_status : option str;   (* [Some msg]: raises HTTPError(msg) *)
  json : exn + pyval
}.

Record world : Type := mk_world {
  (** [os.environ.get('AMAP_API_KEY')] *)
  environ_AMAP_API_KEY : option str;
  (** the rows of [city_codes.csv]; [None] when opening, decoding or
      parsing the file raises *)
  city_codes_csv : option (list csv_row);
  (** [requests.get(url, params=..., timeout=...)] *)
  requests_get : request -> exn + response
}.

Inductive event : Type :=
| EvLoadCityCodes
| EvHttpGet (r : request).

(** Computations that may raise and perform no effect. *)
Definition bindE {A B} (m : exn + A) (f : A -> exn + B) : exn + B :=
  match m with
  | inl e => inl e
  | inr a => f a
  end.

(** Computations that may raise and that log their effects. *)
Definition M (A : Type) : Type := list event -> (exn + A) * list event.

Definition ret {A} (a : A) : M A := fun t => (inr a, t).

Definition bind {A B} (m : M A) (f : A -> M B) : M B :=
  fun t =>
    match m t with
    | (inl e, t') => (inl e, t')
    | (inr a, t') => f a t'
    end.

Definition raise {A} (e : exn) : M A := fun t => (inl e, t).

Definition emit (ev : event) : M unit := fun t => (inr tt, t ++ [ev]).

Definition lift {A} (r : exn + A) : M A := fun t => (r, t).

(** [try: m  except Exception as e: h e] where [h] itself does not raise. *)
Definition try_except {A} (m : M A) (h : exn -> A) : list event -> A * list event :=
  fun t =>
    match m t with
    | (inl e, t') => (h e, t')
    | (inr a, t') => (a, t')
    end.

Declare Scope py_scope.
Delimit Scope py_scope with py.
Notation "x <- m ;; k" := (bind m (fun x => k))
  (at level 61, m at next level, right associativity) : py_scope.
Notation "m ;; k" := (bind m (fun _ => k))
  (at level 61, right associativity) : py_scope.
Notation "x <~ m ;; k" := (bindE m (fun x => k))
  (at level 61, m at next level, right associativity) : py_scope.
#[local] Open Scope py_scope.

(* ================================================================== *)
(** ** [_load_city_codes] (main.py, lines 15-35) *)

(** The body of the [for row in reader] loop.  The outer [None] stands
    for the [KeyError] of [row['中文名']] or [row['adcode']]; a field that
    is [None] or empty fails the test [if city_name and adcode]. *)
Fixpoint load_rows (rows : list csv_row) (city_codes : dict str) : option (dict str) :=
  match rows with
  | [] => Some city_codes
  | row :: rest =>
      match dict_get row (lit "中文名") with
      | None => None
      | Some city_name =>
          match dict_get row (lit "adcode") with
          | None => None
          | Some adcode =>
              match city_name, adcode with
              | Some name, Some code =>
                  if negb (is_empty name) && negb (is_empty code)
                  then load_rows rest (dict_set city_codes name code)
                  else load_rows rest city_codes
              | _, _ => load_rows rest city_codes
              end
          end
      end
  end.

(** The table the function returns: [{}] whenever anything raised. *)
Definition city_table (w : world) : dict str :=
  match city_codes_csv w with
  | None => []
  | Some rows =>
      match load_rows rows [] with
      | Some city_codes => city_codes
      | None => []
      end
  end.

Definition _load_city_codes (w : world) : M (dict str) :=
  emit EvLoadCityCodes ;;
  ret (city_table w).

(* ================================================================== *)
(** ** [_query_weather_api] (main.py, lines 38-60) *)

Definition api_url : str := lit "https://restapi.amap.com/v3/weather/weatherInfo".

Definition api_request (adcode : str) (extensions : pyval) (api_key : str) : request :=
  {| req_url := api_url;
     req_params := [ (lit "key", PStr api_key);
                     (lit "city", PStr adcode);
                     (lit "extensions", extensions);
                     (lit "output", PStr (lit "JSON")) ];
     req_timeout := 10 |}.

Definition _query_weather_api (w : world) (adcode : str) (extensions : pyval)
    (api_key : str) : M pyval :=
  let r := api_request adcode extensions api_key in
  emit (EvHttpGet r) ;;
  response <- lift (requests_get w r) ;;
  match raise_for_status response with
  | Some msg => raise (RequestException msg)
  | None => lift (json response)
  end.

(* ================================================================== *)
(** ** [get_weather] (main.py, lines 63-277) *)

Section GetWeather.

(** Python's [repr], used by an f-string for a value that is not a
    [str].  It is a builtin of the interpreter and stays abstract. *)
Variable py_repr : pyval -> str.

(** [str(v)], which is what [f"{v}"] inserts. *)
Definition py_str (v : pyval) : str :=
  match v with PStr s => s | _ => py_repr v end.

(** [result.get(k, default)]; a value that is not a [dict] has no
    [get]. *)
Definition result_get (result : pyval) (k : str) (default : pyval) : exn + pyval :=
  match result with
  | PDict d =>
      inr (match dict_get d k with Some v => v | None => default end)
  | _ =>
      inl (OtherException
             (lit "'" ++ type_name result ++ lit "' object has no attribute 'get'"))
  end.

(** [v[0]] *)
Definition py_index0 (v : pyval) : exn + pyval :=
  match v with
  | PList (x :: _) => inr x
  | PList [] => inl (OtherException (lit "list index out of range"))
  | PStr (c :: _) => inr (PStr [c])
  | PStr [] => inl (OtherException (lit "string index out of range"))
  | PDict _ => inl (OtherException (lit "0"))
  | _ =>
      inl (OtherException
             (lit "'" ++ type_name v ++ lit "' object is not subscriptable"))
  end.

(** The failure [dict] every error path builds:
    [{"success": False, "error": ..., "error_code": ...}]. *)
Definition failure (error error_code : str) : pydict :=
  [ (lit "success", PBool false);
    (lit "error", PStr error);
    (lit "error_code", PStr error_code) ].

(** The characters [rstrip] removes in the fuzzy step. *)
Definition suffix_chars : str := lit "市区县".

(** The [for name, code in city_codes.items()] loop of lines 196-200,
    on the pair of variables it assigns. *)
Fixpoint fuzzy_loop (city_name_cleaned : str) (items : dict str)
    (vars : option str * str) : option str * str :=
  match items with
  | [] => vars
  | (name, code) :: rest =>
      if eqb (rstrip suffix_chars name) city_name_cleaned
      then (Some code, name)
      else fuzzy_loop city_name_cleaned rest vars
  end.

(** Lines 189-200: the values of [adcode] and [matched_city_name] after
    the exact and the fuzzy step. *)
Definition resolve_city (city_codes : dict str) (city_name : str) : option str * str :=
  let adcode := dict_get city_codes city_name in
  let matched_city_name := city_name in
  if negb (truthy_opt adcode)
  then fuzzy_loop (rstrip suffix_chars city_name) city_codes (adcode, matched_city_name)
  else (adcode, matched_city_name).

(** Line 204. *)
Definition similar_cities (city_codes : dict str) (city_name : str) : list str :=
  filter (fun name => contains (slice_to 2 city_name) name) (dict_keys city_codes).

(** Line 205. *)
Definition suggestion (similar : list str) : str :=
  match similar with
  | [] => []
  | _ => lit "，您是否想查询：" ++ join (lit ", ") (firstn 5 similar)
  end.


(** Lines 207-211. *)
Definition city_not_found (city_codes : dict str) (city_name : str) : pydict :=
  failure (lit "未找到城市 '" ++ city_name ++ lit "'"
           ++ suggestion (similar_cities city_codes city_name))
          (lit "CITY_NOT_FOUND").

(** Lines 216-258: the shaping of the decoded response.  Nothing here
    touches the outside world; the only way out other than [return] is
    an exception. *)
Definition shape_response (result extensions : pyval) (matched_city_name : str)
    : exn + pydict :=
  status <~ result_get result (lit "status") PNone ;;
  if negb (py_eq_str status (lit "1")) then
    error_msg <~ result_get result (lit "info") (PStr (lit "未知错误")) ;;
    infocode <~ result_get result (lit "infocode") PNone ;;
    inr [ (lit "success", PBool false);
          (lit "error", PStr (lit "高德地图 API 返回错误: " ++ py_str error_msg));
          (lit "error_code", PStr (lit "API_ERROR"));
          (lit "api_infocode", infocode) ]
  else if py_eq_str extensions (lit "base") then
    lives <~ result_get result (lit "lives") (PList []) ;;
    if negb (truthy lives) then
      inr (failure (lit "未获取到天气数据") (lit "NO_DATA"))
    else
      data <~ py_index0 lives ;;
      inr [ (lit "success", PBool true);
            (lit "type", PStr (lit "live"));
            (lit "city_name", PStr matched_city_name);
            (lit "data", data) ]
  else
    forecasts <~ result_get result (lit "forecasts") (PList []) ;;
    if negb (truthy forecasts) then
      inr (failure (lit "未获取到天气预报数据") (lit "NO_DATA"))
    else
      data <~ py_index0 forecasts ;;
      inr [ (lit "success", PBool true);
            (lit "type", PStr (lit "forecast"));
            (lit "city_name", PStr matched_city_name);
            (lit "data", data) ].

(** The [try] block, lines 152-258. *)
Definition get_weather_try (w : world) (city_name extensions : pyval) : M pydict :=
  let api_key := environ_AMAP_API_KEY w in
  if negb (truthy_opt api_key) then
    ret (failure (lit "未配置 AMAP_API_KEY，请在平台上配置高德地图 API 密钥")
           (lit "MISSING_API_KEY"))
  else if negb (truthy city_name) || negb (isinstance_str city_name) then
    ret (failure (lit "city_name 参数必须是非空字符串") (lit "INVALID_CITY_NAME"))
  else if negb (py_in_strs extensions [lit "base"; lit "all"]) then
    ret (failure (lit "extensions 参数必须是 'base' 或 'all'")
           (lit "INVALID_EXTENSIONS"))
  else
    city_codes <- _load_city_codes w ;;
    if dict_is_empty city_codes then
      ret (failure (lit "无法加载城市编码数据") (lit "CITY_DATA_ERROR"))
    else
      let '(adcode, matched_city_name) := resolve_city city_codes (str_of city_name) in
      if negb (truthy_opt adcode) then
        ret (city_not_found city_codes (str_of city_name))
      else
        result <- _query_weather_api w (opt_str adcode) extensions (opt_str api_key) ;;
        lift (shape_response result extensions matched_city_name).

(** The three [except] clauses, lines 260-277. *)
Definition get_weather_except (e : exn) : pydict :=
  match e with
  | Timeout _ => failure (lit "请求超时，请稍后重试") (lit "TIMEOUT")
  | RequestException msg => failure (lit "网络请求失败: " ++ msg) (lit "NETWORK_ERROR")
  | OtherException msg => failure (lit "未知错误: " ++ msg) (lit "UNEXPECTED_ERROR")
  end.

(** [get_weather(city_name, extensions)] run in [w]: the returned [dict]
    and the effects performed, in order. *)
Definition get_weather (w : world) (city_name extensions : pyval) : pydict * list event :=
  try_except (get_weather_try w city_name extensions) get_weather_except [].

End GetWeather.

(* ================================================================== *)
(** ** Predicates used in the statements *)

(** The invariant of the loaded table: keys are unique and not empty,
    codes are not empty. *)
Definition table_ok (d : dict str) : Prop :=
  NoDup (dict_keys d) /\ forall k v, In (k, v) d -> k <> [] /\ v <> [].

(** [result["error_code"]], when the key is there. *)
Definition error_code (r : pydict) : option pyval := dict_get r (lit "error_code").

(** The success variant of the result: [success] is [True]; [type] is
    ["live"] or ["forecast"]; [city_name] and [data] are present; [error]
    and [error_code] are absent. *)
Definition success_variant (r : pydict) : Prop :=
  dict_get r (lit "success") = Some (PBool true) /\
  (dict_get r (lit "type") = Some (PStr (lit "live")) \/
   dict_get r (lit "type") = Some (PStr (lit "forecast"))) /\
  (exists name, dict_get r (lit "city_name") = Some (PStr name)) /\
  dict_mem r (lit "data") = true /\
  dict_mem r (lit "error") = false /\
  dict_mem r (lit "error_code") = false.

(** The failure variant: [success] is [False]; [error] and [error_code]
    are strings; [type], [city_name] and [data] are absent. *)
Definition failure_variant (r : pydict) : Prop :=
  dict_get r (lit "success") = Some (PBool false) /\
  (exists msg, dict_get r (lit "error") = Some (PStr msg)) /\
  (exists code, dict_get r (lit "error_code") = Some (PStr code)) /\
  dict_mem r (lit "type") = false /\
  dict_mem r (lit "city_name") = false /\
  dict_mem r (lit "data") = false.


(** The call performed the HTTP request [r]. *)
Definition performs_request (run : pydict * list event) (r : request) : Prop :=
  In (EvHttpGet r) (snd run).

(* ================================================================== *)
(** ** Sample worlds *)

Module Sample.

Definition row (name adcode : string) : csv_row :=
  [ (lit "中文名", Some (lit name)); (lit "adcode", Some (lit adcode));
    (lit "citycode", Some (lit "010")) ].

(** A row cut short after its first field. *)
Definition short_row (name : string) : csv_row :=
  [ (lit "中文名", Some (lit name)); (lit "adcode", None); (lit "citycode", None) ].

Definition rows : list csv_row :=
  [ row "北京市" "110000"; row "朝阳区" "110105"; short_row "东城区";
    row "上海市" "310000"; row "朝阳市" "211300"; row "" "999999" ].

Definition api_key : str := lit "test_api_key_12345".

Definition live : pyval :=
  PDict [ (lit "province", PStr (lit "北京")); (lit "city", PStr (lit "北京市"));
          (lit "weather", PStr (lit "晴")); (lit "temperature", PStr (lit "27")) ].

Definition forecast : pyval :=
  PDict [ (lit "city", PStr (lit "上海市")); (lit "casts", PList []) ].

Definition body_ok : pyval :=
  PDict [ (lit "status", PStr (lit "1")); (lit "info", PStr (lit "OK"));
          (lit "infocode", PStr (lit "10000"));
          (lit "lives", PList [live]); (lit "forecasts", PList [forecast]) ].

Definition body_invalid_key : pyval :=
  PDict [ (lit "status", PStr (lit "0")); (lit "info", PStr (lit "INVALID_USER_KEY"));
          (lit "infocode", PStr (lit "10001")) ].

(** A world with the sample table, a configured key, and [get] as the
    network. *)
Definition world_with (get : request -> exn + response) : world :=
  {| environ_AMAP_API_KEY := Some api_key;
     city_codes_csv := Some rows;
     requests_get := get |}.

Definition answers (body : pyval) : request -> exn + response :=
  fun _ => inr {| raise_for_status := None; json := inr body |}.

Definition times_out : request -> exn + response :=
  fun _ => inl (Timeout (lit "Read timed out. (read timeout=10)")).

(** The same table with no key configured. *)
Definition world_without_key : world :=
  {| environ_AMAP_API_KEY := None;
     city_codes_csv := Some rows;
     requests_get := answers body_ok |}.

(** [repr] is not exercised by the samples. *)
Definition repr : pyval -> str := fun _ => lit "?".

End Sample.

(* ================================================================== *)
(** ** Predicates for the checks and the table *)

(** The check of line 156 passes: the variable is set and not empty. *)
Definition key_configured (w : world) : Prop :=
  truthy_opt (environ_AMAP_API_KEY w) = true.

(** The check of line 164 passes: a [str] that is not empty. *)
Definition valid_city_name (v : pyval) : Prop :=
  exists q, v = PStr q /\ q <> [].

(** The check of line 172 passes. *)
Definition valid_mode (v : pyval) : Prop :=
  v = PStr (lit "base") \/ v = PStr (lit "all").

(** Some key of the loaded table has the stripped form of the query. *)
Definition city_matches (w : world) (city_name : pyval) : Prop :=
  exists q n,
    city_name = PStr q /\ In n (dict_keys (city_table w)) /\
    rstrip suffix_chars n = rstrip suffix_chars q.

(** The codes a failure can carry. *)
Definition error_codes : list str :=
  [ lit "MISSING_API_KEY"; lit "INVALID_CITY_NAME"; lit "INVALID_EXTENSIONS";
    lit "CITY_DATA_ERROR"; lit "CITY_NOT_FOUND"; lit "API_ERROR"; lit "NO_DATA";
    lit "TIMEOUT"; lit "NETWORK_ERROR"; lit "UNEXPECTED_ERROR" ].

(** The codes of a failure that comes after the request was sent. *)
Definition request_error_codes : list str :=
  [ lit "API_ERROR"; lit "NO_DATA"; lit "TIMEOUT"; lit "NETWORK_ERROR";
    lit "UNEXPECTED_ERROR" ].

(** Both subscripts of lines 29-30 succeed on the row. *)
Definition row_has_columns (row : csv_row) : bool :=
  match dict_get row (lit "中文名"), dict_get row (lit "adcode") with
  | Some _, Some _ => true
  | _, _ => false
  end.

(** The assignment of line 32 the row causes, if any: both fields are
    there and neither is empty. *)
Definition row_entry (row : csv_row) : option (str * str) :=
  match dict_get row (lit "中文名"), dict_get row (lit "adcode") with
  | Some (Some name), Some (Some code) =>
      if negb (is_empty name) && negb (is_empty code) then Some (name, code) else None
  | _, _ => None
  end.

(** The assignments of a whole file, in row order. *)
Fixpoint csv_entries (rows : list csv_row) : list (str * str) :=
  match rows with
  | [] => []
  | row :: rest =>
      match row_entry row with
      | Some e => e :: csv_entries rest
      | None => csv_entries rest
      end
  end.

(** One assignment [city_codes[name] = code]. *)
Definition assign (d : dict str) (e : str * str) : dict str :=
  dict_set d (fst e) (snd e).

(** The names of [names] not in [seen], each at its first occurrence. *)
Fixpoint first_occurrences (seen names : list str) : list str :=
  match names with
  | [] => []
  | n :: rest =>
      if existsb (fun k => eqb k n) seen
      then first_occurrences seen rest
      else n :: first_occurrences (seen ++ [n]) rest
  end.

(* ================================================================== *)
(** ** A sample file with repeated names *)

Module SampleFile.

(** "朝阳区" occurs twice, as it does for the districts of Beijing and of
    Changchun; one row has no adcode. *)
Definition rows : list csv_row :=
  [ Sample.row "朝阳区" "110105"; Sample.row "上海市" "310000";
    Sample.row "朝阳区" "220104"; Sample.row "外国" "";
    Sample.row "朝阳市" "211300" ].

Definition world : world :=
  {| environ_AMAP_API_KEY := Some Sample.api_key;
     city_codes_csv := Some rows;
     requests_get := Sample.answers Sample.body_ok |}.

(** A file whose header lacks the adcode column. *)
Definition headless_rows : list csv_row :=
  [ [ (lit "中文名", Some (lit "北京市")); (lit "citycode", Some (lit "010")) ] ].

End SampleFile.

(* ================================================================== *)
(** ** Strings and dictionaries: basic facts *)

Example lit_suffixes : lit "市区县" = [0x5E02; 0x533A; 0x53BF].
Proof. reflexivity. Qed.

Lemma eqb_eq (s t : str) : eqb s t = true <-> s = t.
Proof.
  revert t; induction s as [|a s IH]; intros [|b t]; simpl; split;
    try congruence; try reflexivity.
  - intros H. apply andb_true_iff in H as [Hab Hst].
    apply N.eqb_eq in Hab. apply IH in Hst. now subst.
  - intros H. injection H as -> ->.
    apply andb_true_iff. split; [apply N.eqb_refl | now apply IH].
Qed.

Lemma eqb_refl (s : str) : eqb s s = true.
Proof. now apply eqb_eq. Qed.

Lemma eqb_neq (s t : str) : eqb s t = false <-> s <> t.
Proof.
  split.
  - intros H E. apply eqb_eq in E. congruence.
  - intros H. destruct (eqb s t) eqn:E; [|reflexivity].
    apply eqb_eq in E. contradiction.
Qed.

Lemma is_empty_false (s : str) : is_empty s = false <-> s <> [].
Proof. destruct s; simpl; split; congruence. Qed.

Lemma truthy_opt_true (o : option str) :
  truthy_opt o = true <-> exists s, o = Some s /\ s <> [].
Proof.
  destruct o as [s|]; simpl.
  - rewrite negb_true_iff, is_empty_false. split.
    + intros H. now exists s.
    + intros (s' & E & H). now injection E as ->.
  - split; [discriminate | intros (s & E & _); discriminate].
Qed.

Section DictFacts.
Context {V : Type}.

Lemma dict_get_In (d : dict V) k v : dict_get d k = Some v -> In (k, v) d.
Proof.
  induction d as [|[k' v'] d IH]; simpl; [discriminate|].
  destruct (eqb k' k) eqn:E.
  - apply eqb_eq in E. intros H. injection H as ->. subst. now left.
  - intros H. right. auto.
Qed.

Lemma dict_get_None (d : dict V) k :
  dict_get d k = None <-> ~ In k (dict_keys d).
Proof.
  induction d as [|[k' v'] d IH]; simpl.
  - tauto.
  - destruct (eqb k' k) eqn:E.
    + apply eqb_eq in E. split; [discriminate | intros H; exfalso; auto].
    + apply eqb_neq in E. rewrite IH. tauto.
Qed.

Lemma In_dict_keys (d : dict V) k v : In (k, v) d -> In k (dict_keys d).
Proof. intros H. apply (in_map fst) in H. exact H. Qed.

Lemma dict_set_In (d : dict V) k v a b :
  In (a, b) (dict_set d k v) -> In (a, b) d \/ (a = k /\ b = v).
Proof.
  induction d as [|[k' v'] d IH]; simpl.
  - intros [H|[]]. injection H as <- <-. now right.
  - destruct (eqb k' k) eqn:E; simpl.
    + apply eqb_eq in E. subst k'.
      intros [H|H]; [injection H as <- <-; now right | left; now right].
    + intros [H|H]; [left; now left|].
      destruct (IH H) as [H'|H']; [left; now right | now right].
Qed.

Lemma dict_set_keys (d : dict V) k v a :
  In a (dict_keys (dict_set d k v)) <-> In a (dict_keys d) \/ a = k.
Proof.
  induction d as [|[k' v'] d IH]; simpl.
  - intuition congruence.
  - destruct (eqb k' k) eqn:E; simpl.
    + apply eqb_eq in E. subst k'. intuition congruence.
    + rewrite IH. tauto.
Qed.

Lemma dict_set_NoDup (d : dict V) k v :
  NoDup (dict_keys d) -> NoDup (dict_keys (dict_set d k v)).
Proof.
  induction d as [|[k' v'] d IH]; simpl; intros H.
  - constructor; [intros [] | constructor].
  - inversion H as [|? ? Hnin Hnd]; subst.
    destruct (eqb k' k) eqn:E; simpl.
    + now constructor.
    + apply eqb_neq in E. constructor; [|now apply IH].
      rewrite dict_set_keys. intros [H'|H']; [contradiction | congruence].
Qed.
End DictFacts.

(* ================================================================== *)
(** ** The invariant of the loaded table *)

Lemma load_rows_ok (rows : list csv_row) :
  forall acc d, table_ok acc -> load_rows rows acc = Some d -> table_ok d.
Proof.
  induction rows as [|row rows IH]; simpl; intros acc d Hacc.
  - intros H. now injection H as <-.
  - destruct (dict_get row (lit "中文名")) as [city_name|]; [|discriminate].
    destruct (dict_get row (lit "adcode")) as [adcode|]; [|discriminate].
    destruct city_name as [name|]; [|now apply IH].
    destruct adcode as [code|]; [|now apply IH].
    destruct (negb (is_empty name) && negb (is_empty code)) eqn:E; [|now apply IH].
    apply andb_true_iff in E as [En Ec].
    apply negb_true_iff, is_empty_false in En.
    apply negb_true_iff, is_empty_false in Ec.
    apply IH. destruct Hacc as [Hnd Hne]. split.
    + now apply dict_set_NoDup.
    + intros k v Hin. apply dict_set_In in Hin as [Hin|[-> ->]]; auto.
Qed.

Lemma city_table_ok (w : world) : table_ok (city_table w).
Proof.
  assert (Hnil : table_ok []) by (split; [constructor | intros ? ? []]).
  unfold city_table. destruct (city_codes_csv w) as [rows|]; [|exact Hnil].
  destruct (load_rows rows []) as [d|] eqn:E; [|exact Hnil].
  now apply (load_rows_ok rows [] d).
Qed.

Lemma city_table_code_nonempty (w : world) k v :
  dict_get (city_table w) k = Some v -> v <> [].
Proof.
  intros H. apply dict_get_In in H. now apply (proj2 (city_table_ok w)) in H.
Qed.

(* ================================================================== *)
(** ** The resolver *)

Lemma fuzzy_loop_none cleaned (items : dict str) vars :
  (forall n c, In (n, c) items -> rstrip suffix_chars n <> cleaned) ->
  fuzzy_loop cleaned items vars = vars.
Proof.
  induction items as [|[name code] items IH]; simpl; intros H; [reflexivity|].
  destruct (eqb (rstrip suffix_chars name) cleaned) eqn:E.
  - apply eqb_eq in E. exfalso. apply (H name code); auto.
  - apply IH. intros n c Hin. apply (H n c). now right.
Qed.

Lemma fuzzy_loop_first cleaned (items : dict str) vars :
  (exists n c, In (n, c) items /\ rstrip suffix_chars n = cleaned) ->
  exists pre name code post,
    items = pre ++ (name, code) :: post /\
    rstrip suffix_chars name = cleaned /\
    (forall n c, In (n, c) pre -> rstrip suffix_chars n <> cleaned) /\
    fuzzy_loop cleaned items vars = (Some code, name).
Proof.
  induction items as [|[name code] items IH]; simpl; intros (n & c & Hin & Hs).
  - contradiction.
  - destruct (eqb (rstrip suffix_chars name) cleaned) eqn:E.
    + apply eqb_eq in E. exists [], name, code, items.
      split; [reflexivity|]. split; [exact E|]. split; [intros ? ? []|reflexivity].
    + apply eqb_neq in E.
      destruct Hin as [Hin|Hin]; [injection Hin as -> ->; contradiction|].
      destruct IH as (pre & name' & code' & post & -> & Hs' & Hpre & Hf).
      { now exists n, c. }
      exists ((name, code) :: pre), name', code', post.
      split; [reflexivity|]. split; [exact Hs'|]. split; [|exact Hf].
      intros n0 c0 [H0|H0]; [injection H0 as <- <-; exact E | eauto].
Qed.

Lemma resolve_city_exact (w : world) q code :
  dict_get (city_table w) q = Some code ->
  resolve_city (city_table w) q = (Some code, q).
Proof.
  intros H. unfold resolve_city. rewrite H.
  assert (Hne := city_table_code_nonempty w q code H).
  simpl. apply is_empty_false in Hne. now rewrite Hne.
Qed.

(* ================================================================== *)
(** ** The two phases of [get_weather] *)

Section Phases.
Variable py_repr : pyval -> str.

(** A non-empty table is needed for any resolution. *)
Lemma resolve_city_nonempty_table (city_codes : dict str) q code name :
  resolve_city city_codes q = (Some code, name) -> dict_is_empty city_codes = false.
Proof. destruct city_codes; [discriminate | reflexivity]. Qed.

(** Once every check has passed and the resolver has produced a code,
    the call is one table load, one HTTP request, and the shaping of
    whatever came back. *)
Lemma get_weather_resolved w q ext key code name :
  environ_AMAP_API_KEY w = Some key -> key <> [] ->
  q <> [] ->
  py_in_strs ext [lit "base"; lit "all"] = true ->
  resolve_city (city_table w) q = (Some code, name) -> code <> [] ->
  get_weather py_repr w (PStr q) ext =
  (match
      (response <~ requests_get w (api_request code ext key) ;;
       match raise_for_status response with
       | Some msg => inl (RequestException msg)
       | None => result <~ json response ;; shape_response py_repr result ext name
       end)
    with
    | inl e => get_weather_except e
    | inr r => r
    end,
    [EvLoadCityCodes; EvHttpGet (api_request code ext key)]).
Proof.
  intros Hkey Hk Hq Hext Hres Hcode.
  unfold get_weather, try_except, get_weather_try.
  rewrite Hkey, Hext.
  destruct key as [|k0 key]; [contradiction|].
  destruct q as [|c q]; [contradiction|].
  destruct code as [|c0 code]; [contradiction|].
  simpl. unfold _load_city_codes, bind, emit, ret. simpl.
  rewrite (resolve_city_nonempty_table _ _ _ _ Hres), Hres. simpl.
  unfold _query_weather_api, bind, emit, lift, raise, bindE. simpl.
  destruct (requests_get w _) as [e|resp]; [reflexivity|].
  destruct (raise_for_status resp); [reflexivity|].
  destruct (json resp) as [e|result]; [reflexivity|].
  destruct (shape_response py_repr result ext name); reflexivity.
Qed.

(** The call as a whole: either a check failed before the table was
    loaded, or the table was loaded and the call stopped there, or the
    request phase above was entered. *)
Lemma get_weather_cases w city_name ext :
  (exists error code, get_weather py_repr w city_name ext = (failure error code, [])) \/
  (exists error code,
      get_weather py_repr w city_name ext = (failure error code, [EvLoadCityCodes])) \/
  (exists key q code name,
      environ_AMAP_API_KEY w = Some key /\ key <> [] /\
      city_name = PStr q /\ q <> [] /\
      py_in_strs ext [lit "base"; lit "all"] = true /\
      resolve_city (city_table w) q = (Some code, name) /\ code <> []).
Proof.
  destruct (environ_AMAP_API_KEY w) as [[|k0 key]|] eqn:Hkey;
    try solve [left; unfold get_weather, try_except, get_weather_try, ret;
               rewrite Hkey; simpl; do 2 eexists; reflexivity].
  destruct city_name as [| | | |[|c q]| |];
    try solve [left; unfold get_weather, try_except, get_weather_try, ret;
               rewrite Hkey; simpl; rewrite ?orb_true_r; simpl; do 2 eexists; reflexivity].
  destruct (py_in_strs ext [lit "base"; lit "all"]) eqn:Hext;
    [|left; unfold get_weather, try_except, get_weather_try, ret;
      rewrite Hkey, Hext; simpl; do 2 eexists; reflexivity].
  right.
  destruct (resolve_city (city_table w) (c :: q)) as [[[|c0 code]|] name] eqn:Hres.
  - left. unfold get_weather, try_except, get_weather_try. rewrite Hkey, Hext.
    simpl. unfold _load_city_codes, bind, emit, ret. simpl.
    rewrite (resolve_city_nonempty_table _ _ _ _ Hres), Hres. simpl.
    do 2 eexists; reflexivity.
  - right. exists (k0 :: key), (c :: q), (c0 :: code), name.
    repeat split; try assumption; discriminate.
  - left. unfold get_weather, try_except, get_weather_try. rewrite Hkey, Hext.
    simpl. unfold _load_city_codes, bind, emit, ret. simpl.
    destruct (dict_is_empty (city_table w)); simpl;
      [do 2 eexists; reflexivity|].
    rewrite Hres. simpl. do 2 eexists; reflexivity.
Qed.

(** A call that performed an HTTP request had passed every check, and
    the request is the one built from the resolved code. *)
Lemma get_weather_request_inv w city_name ext r :
  performs_request (get_weather py_repr w city_name ext) r ->
  exists key q code name,
    environ_AMAP_API_KEY w = Some key /\ key <> [] /\
    city_name = PStr q /\ q <> [] /\
    py_in_strs ext [lit "base"; lit "all"] = true /\
    resolve_city (city_table w) q = (Some code, name) /\ code <> [] /\
    r = api_request code ext key.
Proof.
  unfold performs_request.
  destruct (get_weather_cases w city_name ext)
    as [(e & c & ->)|[(e & c & ->)|(key & q & code & name & H)]].
  - intros [].
  - intros [H|[]]. discriminate.
  - destruct H as (Hkey & Hk & -> & Hq & Hext & Hres & Hcode).
    rewrite (get_weather_resolved w q ext key code name) by assumption.
    simpl. intros [H|[H|[]]]; [discriminate|]. injection H as <-.
    exists key, q, code, name. repeat split; assumption.
Qed.
End Phases.

(* ================================================================== *)
(** ** The two variants of the result *)

Lemma variants_exclusive (r : pydict) : success_variant r -> failure_variant r -> False.
Proof. intros (Hs & _) (Hf & _). congruence. Qed.

Lemma failure_is_failure (error code : str) : failure_variant (failure error code).
Proof.
  unfold failure_variant, failure. simpl.
  repeat split; try reflexivity; eexists; reflexivity.
Qed.

Lemma get_weather_except_failure (e : exn) : failure_variant (get_weather_except e).
Proof. destruct e; apply failure_is_failure. Qed.

Section Variants.
Variable py_repr : pyval -> str.

(** Whatever the provider sent, a shaped response is a well-formed
    success that carries the matched name, or a well-formed failure. *)
Lemma shape_response_variant result ext name r :
  shape_response py_repr result ext name = inr r ->
  (success_variant r /\ dict_get r (lit "city_name") = Some (PStr name)) \/
  failure_variant r.
Proof.
  assert (Hok : forall t data,
             t = lit "live" \/ t = lit "forecast" ->
             success_variant
               [ (lit "success", PBool true); (lit "type", PStr t);
                 (lit "city_name", PStr name); (lit "data", data) ]).
  { intros t data Ht. unfold success_variant. simpl.
    repeat split; try reflexivity.
    - destruct Ht as [-> | ->]; [now left | now right].
    - eexists; reflexivity. }
  unfold shape_response.
  destruct (result_get result (lit "status") PNone) as [e|status]; [discriminate|].
  unfold bindE at 1.
  destruct (negb (py_eq_str status (lit "1"))).
  - destruct (result_get result (lit "info") _) as [e|error_msg]; [discriminate|].
    destruct (result_get result (lit "infocode") _) as [e|infocode]; [discriminate|].
    simpl. intros H. injection H as <-. right.
    unfold failure_variant. simpl.
    repeat split; try reflexivity; eexists; reflexivity.
  - destruct (py_eq_str ext (lit "base")).
    + destruct (result_get result (lit "lives") _) as [e|lives]; [discriminate|].
      unfold bindE at 1.
      destruct (negb (truthy lives)).
      * intros H. injection H as <-. right. apply failure_is_failure.
      * destruct (py_index0 lives) as [e|data]; [discriminate|].
        simpl. intros H. injection H as <-. left. split; [|reflexivity].
        apply Hok. now left.
    + destruct (result_get result (lit "forecasts") _) as [e|forecasts]; [discriminate|].
      unfold bindE at 1.
      destruct (negb (truthy forecasts)).
      * intros H. injection H as <-. right. apply failure_is_failure.
      * destruct (py_index0 forecasts) as [e|data]; [discriminate|].
        simpl. intros H. injection H as <-. left. split; [|reflexivity].
        apply Hok. now right.
Qed.

(** The same for the whole call.  In the success case the name is the
    one the resolver matched. *)
Lemma get_weather_variant w city_name ext :
  let r := fst (get_weather py_repr w city_name ext) in
  failure_variant r \/
  (success_variant r /\
   exists q code name,
     city_name = PStr q /\
     resolve_city (city_table w) q = (Some code, name) /\
     dict_get r (lit "city_name") = Some (PStr name)).
Proof.
  destruct (get_weather_cases py_repr w city_name ext)
    as [(e & c & E)|[(e & c & E)|(key & q & code & name & H)]].
  - rewrite E. left. apply failure_is_failure.
  - rewrite E. left. apply failure_is_failure.
  - destruct H as (Hkey & Hk & -> & Hq & Hext & Hres & Hcode).
    rewrite (get_weather_resolved py_repr w q ext key code name) by assumption.
    cbv zeta. unfold fst, bindE.
    destruct (requests_get w _) as [e|resp];
      [left; apply get_weather_except_failure|].
    destruct (raise_for_status resp);
      [left; apply get_weather_except_failure|].
    destruct (json resp) as [e|result];
      [left; apply get_weather_except_failure|].
    destruct (shape_response py_repr result ext name) as [e|r] eqn:Hs;
      [left; apply get_weather_except_failure|].
    apply shape_response_variant in Hs as [[Hs Hn]|Hf]; [right | now left].
    split; [exact Hs|]. now exists q, code, name.
Qed.
End Variants.

Lemma py_eq_str_true (v : pyval) (s : str) : py_eq_str v s = true <-> v = PStr s.
Proof.
  destruct v; simpl; try (split; [discriminate | intros H; discriminate]).
  rewrite eqb_eq. split; [now intros -> | now intros [= ->]].
Qed.

Lemma py_in_strs_modes (ext : pyval) :
  py_in_strs ext [lit "base"; lit "all"] = true <->
  ext = PStr (lit "base") \/ ext = PStr (lit "all").
Proof.
  unfold py_in_strs, existsb.
  rewrite orb_false_r, orb_true_iff, !py_eq_str_true. tauto.
Qed.

(* ================================================================== *)
(** ** A call whose city was resolved *)

Section Resolved.
Variable py_repr : pyval -> str.

Lemma resolved_call_facts w q ext code name :
  resolve_city (city_table w) q = (Some code, name) -> code <> [] ->
  let run := get_weather py_repr w (PStr q) ext in
  (forall r, performs_request run r -> exists key, r = api_request code ext key) /\
  (dict_get (fst run) (lit "success") = Some (PBool true) ->
   dict_get (fst run) (lit "city_name") = Some (PStr name)) /\
  (forall key,
      environ_AMAP_API_KEY w = Some key -> key <> [] -> q <> [] ->
      py_in_strs ext [lit "base"; lit "all"] = true ->
      snd run = [EvLoadCityCodes; EvHttpGet (api_request code ext key)]).
Proof.
  intros Hres Hcode run. subst run. repeat split.
  - intros r Hr.
    apply get_weather_request_inv in Hr
      as (key & q' & code' & name' & _ & _ & [= <-] & _ & _ & Hres' & _ & ->).
    rewrite Hres in Hres'. injection Hres' as <- <-. now exists key.
  - intros Hsucc.
    destruct (get_weather_variant py_repr w (PStr q) ext)
      as [(Hf & _)|(_ & q' & code' & name' & [= <-] & Hres' & Hn)].
    + congruence.
    + rewrite Hres in Hres'. now injection Hres' as <- <-.
  - intros key Hkey Hk Hq Hext.
    now rewrite (get_weather_resolved py_repr w q ext key code name).
Qed.
End Resolved.

(* ================================================================== *)
(** ** What [in] and [rstrip] compute *)

Lemma startswith_spec (p s : str) :
  startswith p s = true <-> exists b, s = p ++ b.
Proof.
  revert s; induction p as [|a p IH]; intros s; simpl.
  - split; [intros _; now exists s | reflexivity].
  - destruct s as [|c s].
    + split; [discriminate | intros (b & H); discriminate].
    + rewrite andb_true_iff, IH. unfold char_eqb. rewrite N.eqb_eq. split.
      * intros (-> & b & ->). now exists b.
      * intros (b & [= -> ->]). split; [reflexivity | now exists b].
Qed.

(** [contains p s] holds exactly when [p] is a contiguous block of [s]. *)
Lemma contains_spec (p s : str) :
  contains p s = true <-> exists a b, s = a ++ p ++ b.
Proof.
  induction s as [|c s IH].
  - simpl. rewrite orb_false_r, startswith_spec. split.
    + intros (b & H). now exists [], b.
    + intros (a & b & H). destruct a; [now exists b|discriminate].
  - cbn [contains]. rewrite orb_true_iff, startswith_spec, IH. split.
    + intros [(b & H)|(a & b & ->)]; [now exists [], b | now exists (c :: a), b].
    + intros ([|c' a] & b & H).
      * left. now exists b.
      * right. injection H as <- ->. now exists a, b.
Qed.

Lemma lstrip_spec (chars s : str) :
  exists pre,
    s = pre ++ lstrip chars s /\
    Forall (fun c => mem c chars = true) pre /\
    (forall c rest, lstrip chars s = c :: rest -> mem c chars = false).
Proof.
  induction s as [|a s (pre & Hs & Hpre & Hhd)]; simpl.
  - exists []. repeat split; [constructor | discriminate].
  - destruct (mem a chars) eqn:E.
    + exists (a :: pre). split; [simpl; now rewrite <- Hs|].
      split; [now constructor | exact Hhd].
    + exists []. split; [reflexivity|]. split; [constructor|].
      now intros c rest [= <- <-].
Qed.

(** [rstrip chars s] is [s] without a tail made of characters of [chars],
    and it does not end with such a character: the tail is the longest. *)
Lemma rstrip_spec (chars s : str) :
  exists tail,
    s = rstrip chars s ++ tail /\
    Forall (fun c => mem c chars = true) tail /\
    (forall init c, rstrip chars s = init ++ [c] -> mem c chars = false).
Proof.
  unfold rstrip.
  destruct (lstrip_spec chars (rev s)) as (pre & Hs & Hpre & Hhd).
  exists (rev pre). split; [|split].
  - rewrite <- rev_app_distr, <- Hs. symmetry. apply rev_involutive.
  - apply Forall_forall. intros c Hc. apply in_rev in Hc.
    revert c Hc. now apply Forall_forall.
  - intros init c H. apply (Hhd c (rev init)).
    rewrite <- (rev_involutive (lstrip chars (rev s))), H, rev_app_distr.
    reflexivity.
Qed.

(* ================================================================== *)
(** ** The properties of the specification *)

Section Claims.
Variable py_repr : pyval -> str.

(** C4.  When the credential is absent from the environment, the call
    returns the [MISSING_API_KEY] failure whatever the two arguments, the
    CSV file and the network are, and its trace is empty: the table is not
    loaded (so no city is resolved) and no request is sent. *)
Theorem missing_api_key_short_circuits
    (csv : option (list csv_row)) (get : request -> exn + response)
    (city_name extensions : pyval) :
  get_weather py_repr
    {| environ_AMAP_API_KEY := None; city_codes_csv := csv; requests_get := get |}
    city_name extensions
  = (failure (lit "未配置 AMAP_API_KEY，请在平台上配置高德地图 API 密钥")
       (lit "MISSING_API_KEY"),
     []).
Proof. reflexivity. Qed.

(** C10.  A credential that is set to the empty string is treated as an
    absent one: same [MISSING_API_KEY] failure, empty trace, so the empty
    key never reaches the network. *)
Theorem empty_api_key_is_missing
    (csv : option (list csv_row)) (get : request -> exn + response)
    (city_name extensions : pyval) :
  get_weather py_repr
    {| environ_AMAP_API_KEY := Some []; city_codes_csv := csv; requests_get := get |}
    city_name extensions
  = get_weather py_repr
      {| environ_AMAP_API_KEY := None; city_codes_csv := csv; requests_get := get |}
      city_name extensions
  /\ error_code (fst (get_weather py_repr
      {| environ_AMAP_API_KEY := Some []; city_codes_csv := csv; requests_get := get |}
      city_name extensions)) = Some (PStr (lit "MISSING_API_KEY"))
  /\ snd (get_weather py_repr
      {| environ_AMAP_API_KEY := Some []; city_codes_csv := csv; requests_get := get |}
      city_name extensions) = [].
Proof. repeat split. Qed.

(** C5, as amended.  With a credential configured, a [city_name] that is
    the empty string or not a string at all yields the [INVALID_CITY_NAME]
    failure, and the trace is empty: the table is not loaded. *)
Theorem invalid_city_name_after_key (w : world) (city_name extensions : pyval) :
  truthy_opt (environ_AMAP_API_KEY w) = true ->
  city_name = PStr [] \/ isinstance_str city_name = false ->
  get_weather py_repr w city_name extensions
  = (failure (lit "city_name 参数必须是非空字符串") (lit "INVALID_CITY_NAME"), []).
Proof.
  intros Hkey Hcity.
  unfold get_weather, try_except, get_weather_try, ret. rewrite Hkey. simpl.
  destruct Hcity as [-> | Hns]; [reflexivity|].
  rewrite Hns. simpl. now rewrite orb_true_r.
Qed.

(** C9.  Whatever the inputs and whatever the provider answers, the
    returned [dict] is exactly one of the two variants: the success variant
    (with [type], [city_name], [data] and neither [error] nor [error_code])
    or the failure variant (with [error], [error_code] and none of [type],
    [city_name], [data]). *)
Theorem result_is_exactly_one_variant (w : world) (city_name extensions : pyval) :
  let r := fst (get_weather py_repr w city_name extensions) in
  (success_variant r /\ ~ failure_variant r) \/
  (failure_variant r /\ ~ success_variant r).
Proof.
  intros r. subst r.
  destruct (get_weather_variant py_repr w city_name extensions) as [Hf|[Hs _]].
  - right. split; [exact Hf|]. intros Hs. exact (variants_exclusive _ Hs Hf).
  - left. split; [exact Hs|]. intros Hf. exact (variants_exclusive _ Hs Hf).
Qed.

(** C3.  A city name that is a key of the loaded table resolves to the
    code stored under that key, which is not empty, and the matched name is
    the query itself; this holds whatever the other entries are, so the
    suffix-stripping pass has no say in it.  Any request the call sends
    carries that code, a successful result reports the query as
    [city_name], and once the three checks pass the call is exactly one
    load of the table followed by one request with that code. *)
Theorem exact_match_resolution (w : world) (q : str) (extensions : pyval) (code : str) :
  dict_get (city_table w) q = Some code ->
  let run := get_weather py_repr w (PStr q) extensions in
  code <> [] /\
  resolve_city (city_table w) q = (Some code, q) /\
  (forall r, performs_request run r -> exists key, r = api_request code extensions key) /\
  (dict_get (fst run) (lit "success") = Some (PBool true) ->
   dict_get (fst run) (lit "city_name") = Some (PStr q)) /\
  (forall key,
      environ_AMAP_API_KEY w = Some key -> key <> [] -> q <> [] ->
      py_in_strs extensions [lit "base"; lit "all"] = true ->
      snd run = [EvLoadCityCodes; EvHttpGet (api_request code extensions key)]).
Proof.
  intros Hget run.
  assert (Hcode := city_table_code_nonempty w q code Hget).
  assert (Hres := resolve_city_exact w q code Hget).
  split; [exact Hcode|]. split; [exact Hres|].
  exact (resolved_call_facts py_repr w q extensions code q Hres Hcode).
Qed.


(** C2, as amended.  With a credential configured, a valid mode and a
    non-empty loaded table, a non-empty city name whose stripped form
    equals the stripped form of no key (so it is no key either) yields the
    [CITY_NOT_FOUND] failure after the table load alone.  The message names
    the first five, in table order, of the keys that contain the first two
    characters of the query as a contiguous block; when there is none the
    message carries no suggestion.  A one-character query is its own
    prefix. *)
Theorem city_not_found_suggestions (w : world) (q : str) (extensions : pyval) :
  truthy_opt (environ_AMAP_API_KEY w) = true ->
  py_in_strs extensions [lit "base"; lit "all"] = true ->
  dict_is_empty (city_table w) = false ->
  q <> [] ->
  (forall n, In n (dict_keys (city_table w)) ->
             rstrip suffix_chars n <> rstrip suffix_chars q) ->
  let candidates :=
    filter (fun n => contains (slice_to 2 q) n) (dict_keys (city_table w)) in
  let names := firstn 5 candidates in
  get_weather py_repr w (PStr q) extensions
  = (failure
       (lit "未找到城市 '" ++ q ++ lit "'" ++
        match names with
        | [] => []
        | _ => lit "，您是否想查询：" ++ join (lit ", ") names
        end)
       (lit "CITY_NOT_FOUND"),
     [EvLoadCityCodes]) /\
  (List.length names <= 5)%nat /\
  (forall n, In n names ->
     In n (dict_keys (city_table w)) /\ exists a b, n = a ++ slice_to 2 q ++ b) /\
  (exists rest, candidates = names ++ rest) /\
  ((List.length q < 2)%nat -> slice_to 2 q = q).
Proof.
  intros Hkey Hext Htab Hq Hno candidates names.
  assert (Hget : dict_get (city_table w) q = None).
  { apply dict_get_None. intros Hin. now apply (Hno q Hin). }
  assert (Hres : resolve_city (city_table w) q = (None, q)).
  { unfold resolve_city. rewrite Hget. simpl. apply fuzzy_loop_none.
    intros n c Hin. apply Hno. exact (In_dict_keys _ _ _ Hin). }
  split; [|split; [|split; [|split]]].
  - unfold get_weather, try_except, get_weather_try.
    destruct (environ_AMAP_API_KEY w) as [[|k0 key]|]; try discriminate.
    destruct q as [|c q]; [contradiction|].
    rewrite Hext. simpl. unfold _load_city_codes, bind, emit, ret. simpl.
    rewrite Htab, Hres. simpl.
    unfold city_not_found, suggestion, similar_cities.
    fold candidates. subst names.
    destruct candidates; reflexivity.
  - subst names. apply firstn_le_length.
  - intros n Hn.
    assert (Hc : In n candidates).
    { rewrite <- (firstn_skipn 5 candidates). apply in_or_app. now left. }
    subst candidates. apply filter_In in Hc as [Hin Hc].
    split; [exact Hin | now apply contains_spec].
  - exists (skipn 5 candidates). subst names. symmetry. apply firstn_skipn.
  - intros Hlen. unfold slice_to. apply firstn_all2. lia.
Qed.

(** C6.  When the call sent its request and the provider answered with a
    JSON object whose [status] is not the string "1" (or is missing), the
    result is the [API_ERROR] failure; its message is the fixed prefix
    followed by the text of the body's [info] field (by a default text when
    the body has none), and [api_infocode] repeats the body's
    [infocode]. *)
Theorem api_error_status (w : world) (city_name extensions : pyval)
    (r : request) (resp : response) (body : pydict) :
  performs_request (get_weather py_repr w city_name extensions) r ->
  requests_get w r = inr resp ->
  raise_for_status resp = None ->
  json resp = inr (PDict body) ->
  dict_get body (lit "status") <> Some (PStr (lit "1")) ->
  let result := fst (get_weather py_repr w city_name extensions) in
  result
  = [ (lit "success", PBool false);
      (lit "error",
        PStr (lit "高德地图 API 返回错误: " ++
              py_str py_repr
                (match dict_get body (lit "info") with
                 | Some info => info
                 | None => PStr (lit "未知错误")
                 end)));
      (lit "error_code", PStr (lit "API_ERROR"));
      (lit "api_infocode",
        match dict_get body (lit "infocode") with
        | Some infocode => infocode
        | None => PNone
        end) ] /\
  error_code result = Some (PStr (lit "API_ERROR")) /\
  (forall info,
      dict_get body (lit "info") = Some (PStr info) ->
      dict_get result (lit "error")
      = Some (PStr (lit "高德地图 API 返回错误: " ++ info))).
Proof.
  intros Hr Hget Hraise Hjson Hstatus result.
  apply get_weather_request_inv in Hr
    as (key & q & code & name & Hkey & Hk & -> & Hq & Hext & Hres & Hcode & ->).
  assert (E : result = _) by reflexivity.
  unfold result in E at 2.
  rewrite (get_weather_resolved py_repr w q extensions key code name) in E
    by assumption.
  rewrite Hget in E. unfold bindE at 1, fst in E. rewrite Hraise, Hjson in E.
  unfold bindE at 1 in E.
  unfold shape_response, result_get, bindE in E.
  assert (Hs : py_eq_str
                 (match dict_get body (lit "status") with
                  | Some v => v | None => PNone end) (lit "1") = false).
  { destruct (py_eq_str _ (lit "1")) eqn:Eq; [|reflexivity].
    apply py_eq_str_true in Eq.
    destruct (dict_get body (lit "status")); [congruence | discriminate]. }
  rewrite Hs in E. cbn [negb] in E.
  split; [exact E|]. split.
  - rewrite E. reflexivity.
  - intros info Hinfo. rewrite E, Hinfo. reflexivity.
Qed.



End Claims.

(* ================================================================== *)
(** ** The properties at sample inputs *)

(** The sample table, as loaded: the short row and the row without a name
    are skipped. *)
Example sample_table :
  city_table (Sample.world_with Sample.times_out)
  = [ (lit "北京市", lit "110000"); (lit "朝阳区", lit "110105");
      (lit "上海市", lit "310000"); (lit "朝阳市", lit "211300") ].
Proof. reflexivity. Qed.

(** C5 fails as stated: with no credential configured, an empty city name
    is answered with [MISSING_API_KEY], not [INVALID_CITY_NAME]. *)
Lemma invalid_city_name_without_key :
  error_code (fst (get_weather Sample.repr Sample.world_without_key
                     (PStr []) (PStr (lit "base"))))
  = Some (PStr (lit "MISSING_API_KEY")) /\
  error_code (fst (get_weather Sample.repr Sample.world_without_key
                     (PStr []) (PStr (lit "base"))))
  <> Some (PStr (lit "INVALID_CITY_NAME")).
Proof. split; [reflexivity | discriminate]. Qed.

(** C5 as amended, at the empty name with the sample key configured. *)
Lemma invalid_city_name_after_key_witness :
  truthy_opt (environ_AMAP_API_KEY (Sample.world_with Sample.times_out)) = true /\
  (PStr [] = PStr [] \/ isinstance_str (PStr []) = false) /\
  get_weather Sample.repr (Sample.world_with Sample.times_out)
    (PStr []) (PStr (lit "base"))
  = (failure (lit "city_name 参数必须是非空字符串") (lit "INVALID_CITY_NAME"), []).
Proof.
  split; [reflexivity|]. split; [left; reflexivity|].
  apply (invalid_city_name_after_key Sample.repr
           (Sample.world_with Sample.times_out) (PStr []) (PStr (lit "base"))).
  - reflexivity.
  - left. reflexivity.
Defined.

(** C3 at "朝阳市": the key is in the table, although "朝阳区", which comes
    first, has the same stripped form. *)
Lemma exact_match_resolution_witness :
  dict_get (city_table (Sample.world_with (Sample.answers Sample.body_ok)))
    (lit "朝阳市") = Some (lit "211300") /\
  resolve_city (city_table (Sample.world_with (Sample.answers Sample.body_ok)))
    (lit "朝阳市") = (Some (lit "211300"), lit "朝阳市") /\
  dict_get
    (fst (get_weather Sample.repr (Sample.world_with (Sample.answers Sample.body_ok))
            (PStr (lit "朝阳市")) (PStr (lit "base"))))
    (lit "city_name") = Some (PStr (lit "朝阳市")).
Proof.
  pose proof (exact_match_resolution Sample.repr
                (Sample.world_with (Sample.answers Sample.body_ok))
                (lit "朝阳市") (PStr (lit "base")) (lit "211300") eq_refl)
    as (_ & Hres & _ & Hname & _).
  split; [reflexivity|]. split; [exact Hres|].
  apply Hname. reflexivity.
Defined.


(** The entry C1 picks at "朝阳" is "朝阳区", not "朝阳市". *)
Example fuzzy_first_in_table_order :
  resolve_city (city_table (Sample.world_with (Sample.answers Sample.body_ok)))
    (lit "朝阳") = (Some (lit "110105"), lit "朝阳区").
Proof. reflexivity. Qed.

(** C2 fails as stated: with a key, a valid mode and the sample table, the
    empty city name matches no entry even after stripping, and yet the
    answer is [INVALID_CITY_NAME], reached before the table is loaded. *)
Lemma empty_city_name_is_not_city_not_found :
  truthy_opt (environ_AMAP_API_KEY (Sample.world_with Sample.times_out)) = true /\
  py_in_strs (PStr (lit "base")) [lit "base"; lit "all"] = true /\
  dict_is_empty (city_table (Sample.world_with Sample.times_out)) = false /\
  (forall n, In n (dict_keys (city_table (Sample.world_with Sample.times_out))) ->
             n <> [] /\ rstrip suffix_chars n <> rstrip suffix_chars []) /\
  get_weather Sample.repr (Sample.world_with Sample.times_out)
    (PStr []) (PStr (lit "base"))
  = (failure (lit "city_name 参数必须是非空字符串") (lit "INVALID_CITY_NAME"), []) /\
  error_code (fst (get_weather Sample.repr (Sample.world_with Sample.times_out)
                     (PStr []) (PStr (lit "base"))))
  <> Some (PStr (lit "CITY_NOT_FOUND")).
Proof.
  split; [reflexivity|]. split; [reflexivity|]. split; [reflexivity|].
  split; [|split; [reflexivity | discriminate]].
  intros n [<-|[<-|[<-|[<-|[]]]]]; split; discriminate.
Qed.

(** C2 as amended, at the one-character query "朝": two keys contain it,
    and both are suggested, in table order. *)
Lemma city_not_found_suggestions_witness :
  truthy_opt (environ_AMAP_API_KEY (Sample.world_with Sample.times_out)) = true /\
  py_in_strs (PStr (lit "all")) [lit "base"; lit "all"] = true /\
  dict_is_empty (city_table (Sample.world_with Sample.times_out)) = false /\
  lit "朝" <> [] /\
  (forall n, In n (dict_keys (city_table (Sample.world_with Sample.times_out))) ->
             rstrip suffix_chars n <> rstrip suffix_chars (lit "朝")) /\
  get_weather Sample.repr (Sample.world_with Sample.times_out)
    (PStr (lit "朝")) (PStr (lit "all"))
  = (failure (lit "未找到城市 '朝'，您是否想查询：朝阳区, 朝阳市") (lit "CITY_NOT_FOUND"),
     [EvLoadCityCodes]).
Proof.
  assert (Hno : forall n,
             In n (dict_keys (city_table (Sample.world_with Sample.times_out))) ->
             rstrip suffix_chars n <> rstrip suffix_chars (lit "朝")).
  { intros n [<-|[<-|[<-|[<-|[]]]]]; discriminate. }
  assert (Hq : lit "朝" <> []) by discriminate.
  split; [reflexivity|]. split; [reflexivity|]. split; [reflexivity|].
  split; [exact Hq|]. split; [exact Hno|].
  exact (proj1 (city_not_found_suggestions Sample.repr
                  (Sample.world_with Sample.times_out) (lit "朝") (PStr (lit "all"))
                  eq_refl eq_refl eq_refl Hq Hno)).
Defined.

(** C6 at the scenario of the specification: [status] "0" with [info]
    "INVALID_USER_KEY". *)
Lemma api_error_status_witness :
  performs_request
    (get_weather Sample.repr
       (Sample.world_with (Sample.answers Sample.body_invalid_key))
       (PStr (lit "北京市")) (PStr (lit "base")))
    (api_request (lit "110000") (PStr (lit "base")) Sample.api_key) /\
  dict_get (fst (get_weather Sample.repr
                   (Sample.world_with (Sample.answers Sample.body_invalid_key))
                   (PStr (lit "北京市")) (PStr (lit "base"))))
    (lit "error")
  = Some (PStr (lit "高德地图 API 返回错误: INVALID_USER_KEY")) /\
  error_code (fst (get_weather Sample.repr
                     (Sample.world_with (Sample.answers Sample.body_invalid_key))
                     (PStr (lit "北京市")) (PStr (lit "base"))))
  = Some (PStr (lit "API_ERROR")).
Proof.
  assert (Hr : performs_request
                 (get_weather Sample.repr
                    (Sample.world_with (Sample.answers Sample.body_invalid_key))
                    (PStr (lit "北京市")) (PStr (lit "base")))
                 (api_request (lit "110000") (PStr (lit "base")) Sample.api_key)).
  { right. left. reflexivity. }
  assert (Hs : dict_get
                 [ (lit "status", PStr (lit "0"));
                   (lit "info", PStr (lit "INVALID_USER_KEY"));
                   (lit "infocode", PStr (lit "10001")) ] (lit "status")
               <> Some (PStr (lit "1"))) by discriminate.
  destruct (api_error_status Sample.repr
              (Sample.world_with (Sample.answers Sample.body_invalid_key))
              (PStr (lit "北京市")) (PStr (lit "base")) _ _ _
              Hr eq_refl eq_refl eq_refl Hs) as (_ & Hcode & Hinfo).
  split; [exact Hr|]. split; [|exact Hcode].
  exact (Hinfo (lit "INVALID_USER_KEY") eq_refl).
Defined.



(* ================================================================== *)
(** ** Which check fails first *)

Lemma key_configured_iff (w : world) :
  key_configured w <-> exists key, environ_AMAP_API_KEY w = Some key /\ key <> [].
Proof. apply truthy_opt_true. Qed.

Lemma valid_city_name_iff (v : pyval) :
  valid_city_name v <-> truthy v = true /\ isinstance_str v = true.
Proof.
  split.
  - intros (q & -> & Hq). destruct q; [contradiction | split; reflexivity].
  - intros [Ht Hs]. destruct v; try discriminate.
    exists s. split; [reflexivity|]. destruct s; [discriminate | discriminate].
Qed.

Lemma valid_mode_iff (v : pyval) :
  valid_mode v <-> py_in_strs v [lit "base"; lit "all"] = true.
Proof. symmetry. apply py_in_strs_modes. Qed.

(** On the loaded table the resolver comes back empty-handed exactly when
    no key has the stripped form of the query. *)
Lemma resolve_city_fails_iff (w : world) (q : str) :
  truthy_opt (fst (resolve_city (city_table w) q)) = false <->
  forall n, In n (dict_keys (city_table w)) ->
            rstrip suffix_chars n <> rstrip suffix_chars q.
Proof.
  split.
  - intros Hf n Hn Hs.
    destruct (dict_get (city_table w) q) as [code|] eqn:Hget.
    + rewrite (resolve_city_exact w q code Hget) in Hf. simpl in Hf.
      apply city_table_code_nonempty, is_empty_false in Hget.
      rewrite Hget in Hf. discriminate.
    + assert (Hex : exists n c, In (n, c) (city_table w) /\
                                rstrip suffix_chars n = rstrip suffix_chars q).
      { unfold dict_keys in Hn. apply in_map_iff in Hn as ([n' c] & <- & Hin).
        now exists n', c. }
      destruct (fuzzy_loop_first _ _ (None, q) Hex)
        as (pre & name & code & post & Htab & _ & _ & Hloop).
      unfold resolve_city in Hf. rewrite Hget in Hf. simpl in Hf.
      rewrite Hloop in Hf. simpl in Hf.
      assert (Hcode : code <> []).
      { apply (proj2 (city_table_ok w) name code).
        rewrite Htab. apply in_or_app. right. now left. }
      apply is_empty_false in Hcode. rewrite Hcode in Hf. discriminate.
  - intros Hno.
    assert (Hget : dict_get (city_table w) q = None).
    { apply dict_get_None. intros Hin. now apply (Hno q Hin). }
    unfold resolve_city. rewrite Hget. simpl.
    rewrite fuzzy_loop_none; [reflexivity|].
    intros n c Hin. apply Hno. exact (In_dict_keys _ _ _ Hin).
Qed.

Section Outcome.
Variable py_repr : pyval -> str.

(** The call, check by check: the first check that fails decides the
    result and how far the effects went. *)
Lemma get_weather_outcome (w : world) (city_name ext : pyval) :
  let run := get_weather py_repr w city_name ext in
  (~ key_configured w /\
   run = (failure (lit "未配置 AMAP_API_KEY，请在平台上配置高德地图 API 密钥")
            (lit "MISSING_API_KEY"), [])) \/
  (key_configured w /\ ~ valid_city_name city_name /\
   run = (failure (lit "city_name 参数必须是非空字符串") (lit "INVALID_CITY_NAME"), [])) \/
  (key_configured w /\ valid_city_name city_name /\ ~ valid_mode ext /\
   run = (failure (lit "extensions 参数必须是 'base' 或 'all'")
            (lit "INVALID_EXTENSIONS"), [])) \/
  (key_configured w /\ valid_city_name city_name /\ valid_mode ext /\
   city_table w = [] /\
   run = (failure (lit "无法加载城市编码数据") (lit "CITY_DATA_ERROR"),
          [EvLoadCityCodes])) \/
  (key_configured w /\ valid_mode ext /\ city_table w <> [] /\
   exists q, city_name = PStr q /\ q <> [] /\
             truthy_opt (fst (resolve_city (city_table w) q)) = false /\
             run = (city_not_found (city_table w) q, [EvLoadCityCodes])) \/
  (exists key q code name,
      environ_AMAP_API_KEY w = Some key /\ key <> [] /\
      city_name = PStr q /\ q <> [] /\ valid_mode ext /\
      resolve_city (city_table w) q = (Some code, name) /\ code <> []).
Proof.
  intros run. subst run.
  destruct (truthy_opt (environ_AMAP_API_KEY w)) eqn:Hkey.
  2:{ left. split; [unfold key_configured; congruence|].
      unfold get_weather, try_except, get_weather_try, ret. now rewrite Hkey. }
  right.
  destruct (negb (truthy city_name) || negb (isinstance_str city_name)) eqn:Hcity.
  { left. split; [exact Hkey|]. split.
    - rewrite valid_city_name_iff. intros [Ht Hs]. rewrite Ht, Hs in Hcity.
      discriminate.
    - unfold get_weather, try_except, get_weather_try, ret.
      now rewrite Hkey, Hcity. }
  right.
  assert (Hvalid : valid_city_name city_name).
  { apply valid_city_name_iff. apply orb_false_iff in Hcity as [Ht Hs].
    apply negb_false_iff in Ht, Hs. now split. }
  destruct (py_in_strs ext [lit "base"; lit "all"]) eqn:Hext.
  2:{ left. split; [exact Hkey|]. split; [exact Hvalid|]. split.
      - rewrite valid_mode_iff. congruence.
      - unfold get_weather, try_except, get_weather_try, ret.
        now rewrite Hkey, Hcity, Hext. }
  right.
  assert (Hmode : valid_mode ext) by now apply valid_mode_iff.
  destruct Hvalid as (q & -> & Hq).
  destruct (city_table w) as [|entry table] eqn:Htab.
  { left. split; [exact Hkey|]. split; [now exists q|]. split; [exact Hmode|].
    split; [reflexivity|].
    unfold get_weather, try_except, get_weather_try.
    rewrite Hkey, Hcity, Hext. cbn [negb].
    unfold _load_city_codes, bind, emit, ret. now rewrite Htab. }
  right. rewrite <- Htab.
  destruct (resolve_city (city_table w) q) as [adcode name] eqn:Hres.
  destruct (truthy_opt adcode) eqn:Hcode.
  - right. apply truthy_opt_true in Hcode as (code & -> & Hcode).
    apply truthy_opt_true in Hkey as (key & Hkey & Hk).
    now exists key, q, code, name.
  - left. split; [exact Hkey|]. split; [exact Hmode|].
    split; [rewrite Htab; discriminate|].
    exists q. split; [reflexivity|]. split; [exact Hq|].
    split; [rewrite Hres; exact Hcode|].
    unfold get_weather, try_except, get_weather_try.
    rewrite Hkey, Hcity, Hext. cbn [negb].
    unfold _load_city_codes, bind, emit, ret. cbn [app str_of].
    rewrite Hres, Hcode. rewrite Htab. reflexivity.
Qed.
End Outcome.

(* ================================================================== *)
(** ** After the request *)

Lemma error_code_failure (error code : str) :
  error_code (failure error code) = Some (PStr code).
Proof. reflexivity. Qed.

Lemma error_code_success (r : pydict) : success_variant r -> error_code r = None.
Proof.
  intros (_ & _ & _ & _ & _ & H). unfold error_code.
  unfold dict_mem in H. destruct (dict_get r (lit "error_code")); [discriminate|reflexivity].
Qed.

Lemma get_weather_except_code (e : exn) :
  exists c, error_code (get_weather_except e) = Some (PStr c) /\
            (c = lit "TIMEOUT" \/ c = lit "NETWORK_ERROR" \/ c = lit "UNEXPECTED_ERROR").
Proof.
  destruct e; eexists; (split; [reflexivity|]); auto.
Qed.

Section AfterRequest.
Variable py_repr : pyval -> str.

(** What a shaped response can be, read back from the result. *)
Lemma shape_response_inv result ext name r :
  shape_response py_repr result ext name = inr r ->
  exists body,
    result = PDict body /\
    ((dict_get body (lit "status") <> Some (PStr (lit "1")) /\
      error_code r = Some (PStr (lit "API_ERROR")) /\
      dict_get r (lit "success") = Some (PBool false)) \/
     (dict_get body (lit "status") = Some (PStr (lit "1")) /\
      error_code r = Some (PStr (lit "NO_DATA")) /\
      dict_get r (lit "success") = Some (PBool false)) \/
     (dict_get body (lit "status") = Some (PStr (lit "1")) /\
      exists tag data,
        r = [ (lit "success", PBool true); (lit "type", PStr tag);
              (lit "city_name", PStr name); (lit "data", data) ] /\
        ((ext = PStr (lit "base") /\ tag = lit "live") \/
         (ext <> PStr (lit "base") /\ tag = lit "forecast")))).
Proof.
  destruct result as [| | | | | |body]; try discriminate.
  intros H. exists body. split; [reflexivity|].
  unfold shape_response, result_get, bindE in H.
  destruct (py_eq_str _ (lit "1")) eqn:Hs in H; cbn [negb] in H.
  - apply py_eq_str_true in Hs.
    assert (Hstatus : dict_get body (lit "status") = Some (PStr (lit "1"))).
    { destruct (dict_get body (lit "status")); [now subst | discriminate]. }
    right.
    destruct (py_eq_str ext (lit "base")) eqn:Hext.
    + apply py_eq_str_true in Hext.
      destruct (negb (truthy _)) in H.
      * left. injection H as <-. split; [exact Hstatus | split; reflexivity].
      * right. split; [exact Hstatus|].
        destruct (py_index0 _) as [e|data]; [discriminate|].
        injection H as <-. exists (lit "live"), data. split; [reflexivity|]. now left.
    + assert (Hne : ext <> PStr (lit "base")).
      { intros E. apply py_eq_str_true in E. congruence. }
      destruct (negb (truthy _)) in H.
      * left. injection H as <-. split; [exact Hstatus | split; reflexivity].
      * right. split; [exact Hstatus|].
        destruct (py_index0 _) as [e|data]; [discriminate|].
        injection H as <-. exists (lit "forecast"), data. split; [reflexivity|].
        now right.
  - left. injection H as <-. split; [|split; reflexivity].
    intros E. rewrite E in Hs. discriminate.
Qed.

(** The result of a call that went as far as the request: what an
    [except] clause built, or a shaped response. *)
Lemma resolved_call_result w q ext key code name :
  environ_AMAP_API_KEY w = Some key -> key <> [] ->
  q <> [] ->
  valid_mode ext ->
  resolve_city (city_table w) q = (Some code, name) -> code <> [] ->
  let run := get_weather py_repr w (PStr q) ext in
  snd run = [EvLoadCityCodes; EvHttpGet (api_request code ext key)] /\
  ((exists e,
       fst run = get_weather_except e /\
       (requests_get w (api_request code ext key) = inl e \/
        exists resp,
          requests_get w (api_request code ext key) = inr resp /\
          (raise_for_status resp <> None \/
           json resp = inl e \/
           exists result,
             json resp = inr result /\
             shape_response py_repr result ext name = inl e))) \/
   (exists resp result,
       requests_get w (api_request code ext key) = inr resp /\
       raise_for_status resp = None /\
       json resp = inr result /\
       shape_response py_repr result ext name = inr (fst run))).
Proof.
  intros Hkey Hk Hq Hmode Hres Hcode run. subst run.
  apply valid_mode_iff in Hmode.
  rewrite (get_weather_resolved py_repr w q ext key code name) by assumption.
  split; [reflexivity|]. cbn [fst]. unfold bindE.
  destruct (requests_get w _) as [e|resp]; [left; exists e; auto|].
  destruct (raise_for_status resp) as [msg|] eqn:Hraise.
  { left. exists (RequestException msg). split; [reflexivity|].
    right. exists resp. split; [reflexivity|]. left. rewrite Hraise. discriminate. }
  destruct (json resp) as [e|result] eqn:Hjson.
  { left. exists e. split; [reflexivity|]. right. exists resp. auto. }
  destruct (shape_response py_repr result ext name) as [e|r] eqn:Hshape.
  - left. exists e. split; [reflexivity|]. right. exists resp.
    split; [reflexivity|]. right. right. now exists result.
  - right. now exists resp, result.
Qed.

(** Its error code, when it is a failure, is one of the five codes of the
    request phase. *)
Lemma resolved_call_code w q ext key code name :
  environ_AMAP_API_KEY w = Some key -> key <> [] ->
  q <> [] ->
  valid_mode ext ->
  resolve_city (city_table w) q = (Some code, name) -> code <> [] ->
  let r := fst (get_weather py_repr w (PStr q) ext) in
  success_variant r \/
  exists c, error_code r = Some (PStr c) /\ In c request_error_codes.
Proof.
  intros Hkey Hk Hq Hmode Hres Hcode r. subst r.
  destruct (resolved_call_result w q ext key code name Hkey Hk Hq Hmode Hres Hcode)
    as (_ & [(e & -> & _)|(resp & result & _ & _ & _ & Hshape)]).
  - right. destruct (get_weather_except_code e) as (c & Hc & Hin).
    exists c. split; [exact Hc|]. unfold request_error_codes.
    destruct Hin as [ -> | [ -> | -> ] ]; simpl; auto 6.
  - destruct (shape_response_variant py_repr _ _ _ _ Hshape) as [[Hs _]|Hf].
    + now left.
    + right. apply shape_response_inv in Hshape
        as (body & _ & [(_ & Hc & _)|[(_ & Hc & _)|(_ & tag & data & E & _)]]).
      * eexists. split; [exact Hc|]. simpl; auto.
      * eexists. split; [exact Hc|]. simpl; auto.
      * exfalso. rewrite E in Hf. destruct Hf as (Hf & _). discriminate.
Qed.
End AfterRequest.

(* ================================================================== *)
(** ** What the resolver returns *)

Lemma fuzzy_loop_sound cleaned (items : dict str) vars res :
  fuzzy_loop cleaned items vars = res ->
  res = vars \/
  exists name code,
    res = (Some code, name) /\ In (name, code) items /\
    rstrip suffix_chars name = cleaned.
Proof.
  induction items as [|[name code] items IH]; simpl; intros H; [now left|].
  destruct (eqb (rstrip suffix_chars name) cleaned) eqn:E.
  - apply eqb_eq in E. right. exists name, code. subst res. auto.
  - destruct (IH H) as [->|(n & c & -> & Hin & Hs)]; [now left|].
    right. exists n, c. auto.
Qed.

(** Whatever the resolver returns with a code is an entry of the table
    whose stripped key is the stripped query. *)
Lemma resolve_city_sound (city_codes : dict str) q code name :
  resolve_city city_codes q = (Some code, name) ->
  In (name, code) city_codes /\
  rstrip suffix_chars name = rstrip suffix_chars q.
Proof.
  unfold resolve_city.
  destruct (dict_get city_codes q) as [c|] eqn:Hget.
  - destruct (negb (truthy_opt (Some c))).
    + intros H. apply fuzzy_loop_sound in H as [H|(n & c' & H & Hin & Hs)].
      * injection H as <- <-. split; [now apply dict_get_In | reflexivity].
      * injection H as <- <-. auto.
    + intros [= <- <-]. split; [now apply dict_get_In | reflexivity].
  - simpl. intros H. apply fuzzy_loop_sound in H as [H|(n & c' & H & Hin & Hs)].
    + discriminate.
    + injection H as <- <-. auto.
Qed.

Lemma resolve_city_matches (w : world) q code name :
  resolve_city (city_table w) q = (Some code, name) -> city_matches w (PStr q).
Proof.
  intros H. apply resolve_city_sound in H as [Hin Hs].
  exists q, name. split; [reflexivity|]. split; [|exact Hs].
  exact (In_dict_keys _ _ _ Hin).
Qed.

Lemma city_matches_fails (w : world) q :
  truthy_opt (fst (resolve_city (city_table w) q)) = false ->
  ~ city_matches w (PStr q).
Proof.
  intros Hf (q' & n & [= <-] & Hin & Hs).
  exact (proj1 (resolve_city_fails_iff w q) Hf n Hin Hs).
Qed.

Section Codes.
Variable py_repr : pyval -> str.

(** The error code of the call, check by check. *)
Lemma get_weather_code_cases (w : world) (city_name ext : pyval) :
  let run := get_weather py_repr w city_name ext in
  (~ key_configured w /\ snd run = [] /\
   error_code (fst run) = Some (PStr (lit "MISSING_API_KEY"))) \/
  (key_configured w /\ ~ valid_city_name city_name /\ snd run = [] /\
   error_code (fst run) = Some (PStr (lit "INVALID_CITY_NAME"))) \/
  (key_configured w /\ valid_city_name city_name /\ ~ valid_mode ext /\
   snd run = [] /\
   error_code (fst run) = Some (PStr (lit "INVALID_EXTENSIONS"))) \/
  (key_configured w /\ valid_city_name city_name /\ valid_mode ext /\
   city_table w = [] /\ snd run = [EvLoadCityCodes] /\
   error_code (fst run) = Some (PStr (lit "CITY_DATA_ERROR"))) \/
  (key_configured w /\ valid_city_name city_name /\ valid_mode ext /\
   city_table w <> [] /\ ~ city_matches w city_name /\
   snd run = [EvLoadCityCodes] /\
   error_code (fst run) = Some (PStr (lit "CITY_NOT_FOUND"))) \/
  (key_configured w /\ valid_city_name city_name /\ valid_mode ext /\
   city_table w <> [] /\ city_matches w city_name /\
   (exists r, snd run = [EvLoadCityCodes; EvHttpGet r]) /\
   (success_variant (fst run) \/
    exists c, error_code (fst run) = Some (PStr c) /\ In c request_error_codes)).
Proof.
  intros run.
  destruct (get_weather_outcome py_repr w city_name ext)
    as [(Hk & E)|[(Hk & Hc & E)|[(Hk & Hc & Hm & E)|[(Hk & Hc & Hm & Ht & E)|
        [(Hk & Hm & Ht & q & -> & Hq & Hf & E)|
         (key & q & code & name & Hkey & Hk & -> & Hq & Hm & Hres & Hcode)]]]]];
    fold run in E || idtac.
  - left. rewrite E. auto.
  - right; left. rewrite E. auto.
  - right; right; left. rewrite E. auto.
  - right; right; right; left. rewrite E. auto 7.
  - right; right; right; right; left. rewrite E.
    split; [exact Hk|]. split; [now exists q|]. split; [exact Hm|].
    split; [exact Ht|]. split; [now apply city_matches_fails|]. auto.
  - right; right; right; right; right.
    split; [apply key_configured_iff; now exists key|].
    split; [now exists q|]. split; [exact Hm|].
    split; [intros Ht; rewrite Ht in Hres; discriminate|].
    split; [exact (resolve_city_matches w q code name Hres)|].
    split.
    + exists (api_request code ext key).
      exact (proj1 (resolved_call_result py_repr w q ext key code name
                      Hkey Hk Hq Hm Hres Hcode)).
    + exact (resolved_call_code py_repr w q ext key code name
               Hkey Hk Hq Hm Hres Hcode).
Qed.
End Codes.

(* ================================================================== *)
(** ** Further properties of [get_weather] *)

(** Closes a goal where [H] gives the call an error code that the case at
    hand excludes. *)
Ltac other_code H :=
  match goal with
  | Hc : error_code _ = Some _ |- _ => rewrite Hc in H; discriminate H
  | Hs : success_variant _ |- _ =>
      rewrite (error_code_success _ Hs) in H; discriminate H
  | Hc : error_code _ = Some (PStr ?c), Hin : In ?c request_error_codes |- _ =>
      rewrite Hc in H; injection H as ->; simpl in Hin; intuition discriminate
  end.

Section Further.
Variable py_repr : pyval -> str.

(** X1.  The code [MISSING_API_KEY] is returned exactly when the
    environment variable is unset or set to the empty string: no other
    failed check, and no answer of the provider, is reported under it. *)
Theorem missing_api_key_iff (w : world) (city_name extensions : pyval) :
  error_code (fst (get_weather py_repr w city_name extensions))
  = Some (PStr (lit "MISSING_API_KEY"))
  <-> environ_AMAP_API_KEY w = None \/ environ_AMAP_API_KEY w = Some [].
Proof.
  assert (Hk : ~ key_configured w <->
               environ_AMAP_API_KEY w = None \/ environ_AMAP_API_KEY w = Some []).
  { unfold key_configured. destruct (environ_AMAP_API_KEY w) as [[|c k]|]; simpl.
    - split; [auto | discriminate].
    - split; [intros H; now contradiction H | intros [H|H]; discriminate].
    - split; [auto | discriminate]. }
  rewrite <- Hk.
  destruct (get_weather_code_cases py_repr w city_name extensions)
    as [(Hn & _ & Hc)|[(Hy & _ & _ & Hc)|[(Hy & _ & _ & _ & Hc)|
        [(Hy & _ & _ & _ & _ & Hc)|[(Hy & _ & _ & _ & _ & _ & Hc)|
         (Hy & _ & _ & _ & _ & _ & [Hs|(c & Hc & Hin)])]]]]];
    split; intros H; try assumption; try contradiction; other_code H.
Qed.

(** X2.  The code [INVALID_CITY_NAME] is returned exactly when the
    credential is configured and [city_name] is not a non-empty string. *)
Theorem invalid_city_name_iff (w : world) (city_name extensions : pyval) :
  error_code (fst (get_weather py_repr w city_name extensions))
  = Some (PStr (lit "INVALID_CITY_NAME"))
  <-> key_configured w /\ ~ valid_city_name city_name.
Proof.
  destruct (get_weather_code_cases py_repr w city_name extensions)
    as [(Hn & _ & Hc)|[(Hy & Hv & _ & Hc)|[(Hy & Hv & _ & _ & Hc)|
        [(Hy & Hv & _ & _ & _ & Hc)|[(Hy & Hv & _ & _ & _ & _ & Hc)|
         (Hy & Hv & _ & _ & _ & _ & [Hs|(c & Hc & Hin)])]]]]];
    split; intros H; try (split; assumption); try assumption;
    try (destruct H; contradiction); other_code H.
Qed.

(** X3.  The code [INVALID_EXTENSIONS] is returned exactly when the
    credential is configured, the city name is a non-empty string and the
    mode is neither "base" nor "all" (any other string, or a value that is
    no string).  Nothing is loaded or sent on that path. *)
Theorem invalid_extensions_iff (w : world) (city_name extensions : pyval) :
  (error_code (fst (get_weather py_repr w city_name extensions))
   = Some (PStr (lit "INVALID_EXTENSIONS"))
   <-> key_configured w /\ valid_city_name city_name /\ ~ valid_mode extensions) /\
  (error_code (fst (get_weather py_repr w city_name extensions))
   = Some (PStr (lit "INVALID_EXTENSIONS")) ->
   snd (get_weather py_repr w city_name extensions) = []).
Proof.
  destruct (get_weather_code_cases py_repr w city_name extensions)
    as [(Hn & _ & Hc)|[(Hy & Hv & _ & Hc)|[(Hy & Hv & Hm & Ht & Hc)|
        [(Hy & Hv & Hm & _ & _ & Hc)|[(Hy & Hv & Hm & _ & _ & _ & Hc)|
         (Hy & Hv & Hm & _ & _ & _ & [Hs|(c & Hc & Hin)])]]]]];
    (split; [split|]); intros H; try (repeat split; assumption);
    try assumption; try (destruct H as (? & ? & ?); contradiction);
    other_code H.
Qed.

(** X4.  The code [CITY_DATA_ERROR] is returned exactly when the three
    argument checks pass and the loaded table is empty; the table was
    loaded and no request was sent. *)
Theorem city_data_error_iff (w : world) (city_name extensions : pyval) :
  (error_code (fst (get_weather py_repr w city_name extensions))
   = Some (PStr (lit "CITY_DATA_ERROR"))
   <-> key_configured w /\ valid_city_name city_name /\ valid_mode extensions /\
       city_table w = []) /\
  (error_code (fst (get_weather py_repr w city_name extensions))
   = Some (PStr (lit "CITY_DATA_ERROR")) ->
   snd (get_weather py_repr w city_name extensions) = [EvLoadCityCodes]).
Proof.
  destruct (get_weather_code_cases py_repr w city_name extensions)
    as [(Hn & _ & Hc)|[(Hy & Hv & _ & Hc)|[(Hy & Hv & Hm & _ & Hc)|
        [(Hy & Hv & Hm & Ht & Htr & Hc)|[(Hy & Hv & Hm & Ht & _ & _ & Hc)|
         (Hy & Hv & Hm & Ht & _ & _ & [Hs|(c & Hc & Hin)])]]]]];
    (split; [split|]); intros H; try (repeat split; assumption);
    try assumption; try (destruct H as (? & ? & ? & ?); contradiction);
    other_code H.
Qed.

(** X5.  The code [CITY_NOT_FOUND] is returned exactly when the three
    argument checks pass, the loaded table is not empty and no key of it
    has the stripped form of the query; the table was loaded and no request
    was sent. *)
Theorem city_not_found_iff (w : world) (city_name extensions : pyval) :
  (error_code (fst (get_weather py_repr w city_name extensions))
   = Some (PStr (lit "CITY_NOT_FOUND"))
   <-> key_configured w /\ valid_city_name city_name /\ valid_mode extensions /\
       city_table w <> [] /\ ~ city_matches w city_name) /\
  (error_code (fst (get_weather py_repr w city_name extensions))
   = Some (PStr (lit "CITY_NOT_FOUND")) ->
   snd (get_weather py_repr w city_name extensions) = [EvLoadCityCodes]).
Proof.
  destruct (get_weather_code_cases py_repr w city_name extensions)
    as [(Hn & _ & Hc)|[(Hy & Hv & _ & Hc)|[(Hy & Hv & Hm & _ & Hc)|
        [(Hy & Hv & Hm & Ht & _ & Hc)|[(Hy & Hv & Hm & Ht & Hno & Htr & Hc)|
         (Hy & Hv & Hm & Ht & Hyes & _ & [Hs|(c & Hc & Hin)])]]]]];
    (split; [split|]); intros H; try (repeat split; assumption);
    try assumption; try (destruct H as (? & ? & ? & ? & ?); contradiction);
    other_code H.
Qed.

(** X6.  A request is sent exactly when the credential is configured, the
    city name is a non-empty string, the mode is valid and some key of the
    loaded table has the stripped form of the query. *)
Theorem request_sent_iff (w : world) (city_name extensions : pyval) :
  (exists r, performs_request (get_weather py_repr w city_name extensions) r)
  <-> key_configured w /\ valid_city_name city_name /\ valid_mode extensions /\
      city_matches w city_name.
Proof.
  unfold performs_request.
  destruct (get_weather_code_cases py_repr w city_name extensions)
    as [(Hn & Htr & _)|[(Hy & Hv & Htr & _)|[(Hy & Hv & Hm & Htr & _)|
        [(Hy & Hv & Hm & Ht & Htr & _)|[(Hy & Hv & Hm & Ht & Hno & Htr & _)|
         (Hy & Hv & Hm & Ht & Hyes & (r0 & Htr) & _)]]]]];
    rewrite Htr; (split; [intros (r & Hr) | intros (H1 & H2 & H3 & H4)]);
    try contradiction; try (repeat split; assumption).
  - destruct Hr as [Hr|[]]. discriminate.
  - destruct H4 as (q & n & _ & Hin & _). rewrite Ht in Hin. contradiction.
  - destruct Hr as [Hr|[]]. discriminate.
  - exists r0. right. now left.
Qed.

(** X7.  Every result is a success or a failure whose [error_code] is
    one of the ten codes of the taxonomy. *)
Theorem error_code_is_known (w : world) (city_name extensions : pyval) :
  let r := fst (get_weather py_repr w city_name extensions) in
  (success_variant r /\ error_code r = None) \/
  (failure_variant r /\
   exists c, error_code r = Some (PStr c) /\ In c error_codes).
Proof.
  intros r. subst r.
  assert (Hcode :
            success_variant (fst (get_weather py_repr w city_name extensions)) \/
            exists c,
              error_code (fst (get_weather py_repr w city_name extensions))
              = Some (PStr c) /\ In c error_codes).
  { destruct (get_weather_code_cases py_repr w city_name extensions)
      as [(_ & _ & Hc)|[(_ & _ & _ & Hc)|[(_ & _ & _ & _ & Hc)|
          [(_ & _ & _ & _ & _ & Hc)|[(_ & _ & _ & _ & _ & _ & Hc)|
           (_ & _ & _ & _ & _ & _ & [Hs|(c & Hc & Hin)])]]]]].
    - right. eexists. split; [exact Hc|]. now left.
    - right. eexists. split; [exact Hc|]. right. now left.
    - right. eexists. split; [exact Hc|]. do 2 right. now left.
    - right. eexists. split; [exact Hc|]. do 3 right. now left.
    - right. eexists. split; [exact Hc|]. do 4 right. now left.
    - now left.
    - right. exists c. split; [exact Hc|]. do 5 right. exact Hin. }
  destruct Hcode as [Hs|(c & Hc & Hin)].
  - left. split; [exact Hs | now apply error_code_success].
  - right. split; [|now exists c].
    destruct (get_weather_variant py_repr w city_name extensions) as [Hf|[Hs _]];
      [exact Hf|].
    rewrite (error_code_success _ Hs) in Hc. discriminate.
Qed.

(** X8.  A call loads the table at most once and sends at most one
    request, and a request only comes after the load: the effects of a call
    are nothing, or the load alone, or the load followed by one request.
    There is no retry. *)
Theorem at_most_one_request (w : world) (city_name extensions : pyval) :
  let effects := snd (get_weather py_repr w city_name extensions) in
  effects = [] \/
  effects = [EvLoadCityCodes] \/
  exists r, effects = [EvLoadCityCodes; EvHttpGet r].
Proof.
  intros effects. subst effects.
  destruct (get_weather_code_cases py_repr w city_name extensions)
    as [(_ & Htr & _)|[(_ & _ & Htr & _)|[(_ & _ & _ & Htr & _)|
        [(_ & _ & _ & _ & Htr & _)|[(_ & _ & _ & _ & _ & Htr & _)|
         (_ & _ & _ & _ & _ & Htr & _)]]]]]; auto.
Qed.

(** X9.  Whatever request a call sends is a GET of the fixed weather URL
    with a timeout of 10 seconds and exactly four parameters: [key] is the
    configured credential, not empty; [city] is a non-empty code stored in
    the loaded table; [extensions] is the caller's mode, "base" or "all";
    [output] is "JSON". *)
Theorem request_content (w : world) (city_name extensions : pyval) (r : request) :
  performs_request (get_weather py_repr w city_name extensions) r ->
  exists key name code,
    environ_AMAP_API_KEY w = Some key /\ key <> [] /\
    In (name, code) (city_table w) /\ code <> [] /\
    valid_mode extensions /\
    r = {| req_url := lit "https://restapi.amap.com/v3/weather/weatherInfo";
           req_params := [ (lit "key", PStr key); (lit "city", PStr code);
                           (lit "extensions", extensions);
                           (lit "output", PStr (lit "JSON")) ];
           req_timeout := 10 |}.
Proof.
  intros Hr.
  apply get_weather_request_inv in Hr
    as (key & q & code & name & Hkey & Hk & _ & _ & Hext & Hres & Hcode & ->).
  exists key, name, code.
  split; [exact Hkey|]. split; [exact Hk|].
  split; [exact (proj1 (resolve_city_sound _ _ _ _ Hres))|].
  split; [exact Hcode|]. split; [now apply valid_mode_iff | reflexivity].
Qed.

(** X10.  A success is only ever returned after a request that the
    provider answered without an HTTP error, with a JSON object whose
    [status] is "1"; the [type] of the success follows the mode, "live" for
    "base" and "forecast" for "all". *)
Theorem success_requires (w : world) (city_name extensions : pyval) :
  dict_get (fst (get_weather py_repr w city_name extensions)) (lit "success")
  = Some (PBool true) ->
  exists r resp body,
    snd (get_weather py_repr w city_name extensions) = [EvLoadCityCodes; EvHttpGet r] /\
    requests_get w r = inr resp /\
    raise_for_status resp = None /\
    json resp = inr (PDict body) /\
    dict_get body (lit "status") = Some (PStr (lit "1")) /\
    ((extensions = PStr (lit "base") /\
      dict_get (fst (get_weather py_repr w city_name extensions)) (lit "type")
      = Some (PStr (lit "live"))) \/
     (extensions = PStr (lit "all") /\
      dict_get (fst (get_weather py_repr w city_name extensions)) (lit "type")
      = Some (PStr (lit "forecast")))).
Proof.
  intros Hsucc.
  destruct (get_weather_outcome py_repr w city_name extensions)
    as [(_ & E)|[(_ & _ & E)|[(_ & _ & _ & E)|[(_ & _ & _ & _ & E)|
        [(_ & _ & _ & q & _ & _ & _ & E)|
         (key & q & code & name & Hkey & Hk & -> & Hq & Hm & Hres & Hcode)]]]]];
    try (rewrite E in Hsucc; discriminate Hsucc).
  destruct (resolved_call_result py_repr w q extensions key code name
              Hkey Hk Hq Hm Hres Hcode)
    as (Htr & [(e & E & _)|(resp & result & Hget & Hraise & Hjson & Hshape)]).
  { rewrite E in Hsucc. destruct e; discriminate Hsucc. }
  apply shape_response_inv in Hshape
    as (body & -> & [(_ & _ & Hf)|[(_ & _ & Hf)|(Hstatus & tag & data & E & Htag)]]);
    try congruence.
  exists (api_request code extensions key), resp, body.
  split; [exact Htr|]. split; [exact Hget|]. split; [exact Hraise|].
  split; [exact Hjson|]. split; [exact Hstatus|].
  rewrite E.
  destruct Htag as [(-> & ->)|(Hne & ->)]; [now left|].
  right. split; [|reflexivity].
  destruct Hm as [->| ->]; [now contradiction Hne | reflexivity].
Qed.

(** X11.  Anything that goes wrong after the request was sent, other
    than a failure of the request itself, is reported as
    [UNEXPECTED_ERROR]: an exception that is no [RequestException] raised
    by [requests.get] or by [response.json()], with its text in the
    message, and a decoded body that is not a JSON object, which has no
    [get]. *)
Theorem unexpected_error (w : world) (city_name extensions : pyval) (r : request) :
  performs_request (get_weather py_repr w city_name extensions) r ->
  let result := fst (get_weather py_repr w city_name extensions) in
  (forall msg,
      requests_get w r = inl (OtherException msg) ->
      result = failure (lit "未知错误: " ++ msg) (lit "UNEXPECTED_ERROR")) /\
  (forall resp msg,
      requests_get w r = inr resp -> raise_for_status resp = None ->
      json resp = inl (OtherException msg) ->
      result = failure (lit "未知错误: " ++ msg) (lit "UNEXPECTED_ERROR")) /\
  (forall resp v,
      requests_get w r = inr resp -> raise_for_status resp = None ->
      json resp = inr v -> (forall body, v <> PDict body) ->
      exists msg,
        result = failure (lit "未知错误: " ++ msg) (lit "UNEXPECTED_ERROR")).
Proof.
  intros Hr result.
  apply get_weather_request_inv in Hr
    as (key & q & code & name & Hkey & Hk & -> & Hq & Hext & Hres & Hcode & ->).
  assert (E : result = _) by reflexivity.
  unfold result in E at 2.
  rewrite (get_weather_resolved py_repr w q extensions key code name) in E
    by assumption.
  unfold fst in E.
  split; [|split].
  - intros msg Hget. rewrite Hget in E. exact E.
  - intros resp msg Hget Hraise Hjson. rewrite Hget in E. unfold bindE in E.
    rewrite Hraise, Hjson in E. exact E.
  - intros resp v Hget Hraise Hjson Hv. rewrite Hget in E. unfold bindE in E.
    rewrite Hraise, Hjson in E.
    destruct v as [| | | | | |d]; [ | | | | | | now contradiction (Hv d)];
      eexists; exact E.
Qed.

End Further.

(* ================================================================== *)
(** ** The loop of [_load_city_codes] as a fold *)

Section DictSet.
Context {V : Type}.

Lemma dict_get_set_same (d : dict V) k v : dict_get (dict_set d k v) k = Some v.
Proof.
  induction d as [|[k' v'] d IH]; simpl.
  - now rewrite eqb_refl.
  - destruct (eqb k' k) eqn:E; simpl; rewrite E; [reflexivity | exact IH].
Qed.

Lemma dict_get_set_other (d : dict V) k v k0 :
  k0 <> k -> dict_get (dict_set d k v) k0 = dict_get d k0.
Proof.
  intros Hne. induction d as [|[k' v'] d IH]; simpl.
  - apply eqb_neq in Hne. destruct (eqb k k0) eqn:E; [|reflexivity].
    apply eqb_eq in E. subst. now rewrite eqb_refl in Hne.
  - destruct (eqb k' k) eqn:E; simpl.
    + apply eqb_eq in E. subst k'.
      destruct (eqb k k0) eqn:E0; [|reflexivity].
      apply eqb_eq in E0. subst. contradiction.
    + now rewrite IH.
Qed.

Lemma dict_set_nonempty (d : dict V) k v : dict_set d k v <> [].
Proof. destruct d as [|[k' v'] d]; simpl; [|destruct (eqb k' k)]; discriminate. Qed.

Lemma dict_set_keys_eq (d : dict V) k v :
  dict_keys (dict_set d k v)
  = if existsb (fun k' => eqb k' k) (dict_keys d)
    then dict_keys d else dict_keys d ++ [k].
Proof.
  induction d as [|[k' v'] d IH]; simpl; [reflexivity|].
  destruct (eqb k' k) eqn:E; simpl; [reflexivity|].
  rewrite IH. now destruct (existsb _ (dict_keys d)).
Qed.

Lemma dict_get_of_In (d : dict V) k v :
  NoDup (dict_keys d) -> In (k, v) d -> dict_get d k = Some v.
Proof.
  induction d as [|[k' v'] d IH]; simpl; intros Hnd Hin; [contradiction|].
  inversion Hnd as [|? ? Hnin Hnd']; subst.
  destruct Hin as [[= -> ->]|Hin].
  - now rewrite eqb_refl.
  - destruct (eqb k' k) eqn:E; [|now apply IH].
    apply eqb_eq in E. subst k'. exfalso. apply Hnin.
    exact (In_dict_keys _ _ _ Hin).
Qed.
End DictSet.

(** The table after the assignments [es], starting from [acc]. *)
Lemma load_rows_fold (rows : list csv_row) :
  forall acc,
    (forall row, In row rows -> row_has_columns row = true) ->
    load_rows rows acc
    = Some (fold_left assign (csv_entries rows) acc).
Proof.
  induction rows as [|row rows IH]; intros acc Hcols; [reflexivity|].
  assert (Hrow := Hcols row (or_introl eq_refl)).
  assert (Hrest : forall r, In r rows -> row_has_columns r = true)
    by (intros r Hr; apply Hcols; now right).
  unfold row_has_columns in Hrow. simpl. unfold row_entry.
  destruct (dict_get row (lit "中文名")) as [city_name|]; [|discriminate].
  destruct (dict_get row (lit "adcode")) as [adcode|]; [|discriminate].
  destruct city_name as [name|]; [|now apply IH].
  destruct adcode as [code|]; [|now apply IH].
  destruct (negb (is_empty name) && negb (is_empty code)); now apply IH.
Qed.

Lemma load_rows_missing_column (rows : list csv_row) :
  forall acc row,
    In row rows -> row_has_columns row = false -> load_rows rows acc = None.
Proof.
  induction rows as [|r rows IH]; intros acc row Hin Hrow; [contradiction|].
  destruct Hin as [->|Hin].
  - unfold row_has_columns in Hrow. simpl.
    destruct (dict_get row (lit "中文名")) as [city_name|]; [|reflexivity].
    destruct (dict_get row (lit "adcode")) as [adcode|]; [discriminate|reflexivity].
  - simpl.
    destruct (dict_get r (lit "中文名")) as [city_name|]; [|reflexivity].
    destruct (dict_get r (lit "adcode")) as [adcode|]; [|reflexivity].
    destruct city_name as [name|]; [|now apply (IH _ row)].
    destruct adcode as [code|]; [|now apply (IH _ row)].
    destruct (negb (is_empty name) && negb (is_empty code)); now apply (IH _ row).
Qed.

Lemma rows_columns_dec (rows : list csv_row) :
  (forall row, In row rows -> row_has_columns row = true) \/
  (exists row, In row rows /\ row_has_columns row = false).
Proof.
  induction rows as [|r rows [IH|(row & Hin & Hrow)]].
  - left. intros ? [].
  - destruct (row_has_columns r) eqn:E.
    + left. intros row [<-|Hin]; auto.
    + right. exists r. split; [now left | exact E].
  - right. exists row. split; [now right | exact Hrow].
Qed.

Lemma fold_assign_In (es : list (str * str)) :
  forall acc n c,
    In (n, c) (fold_left assign es acc) -> In (n, c) acc \/ In (n, c) es.
Proof.
  induction es as [|[n0 c0] es IH]; simpl; intros acc n c H; [now left|].
  apply IH in H as [H|H]; [|right; now right].
  apply dict_set_In in H as [H|[-> ->]]; [now left | right; now left].
Qed.

Lemma fold_assign_other (es : list (str * str)) :
  forall acc n,
    (forall c, ~ In (n, c) es) ->
    dict_get (fold_left assign es acc) n = dict_get acc n.
Proof.
  induction es as [|[n0 c0] es IH]; simpl; intros acc n Hno; [reflexivity|].
  rewrite IH by (intros c Hc; apply (Hno c); now right).
  apply dict_get_set_other. intros ->. apply (Hno c0). now left.
Qed.

Lemma fold_assign_nonempty (es : list (str * str)) :
  forall acc, acc <> [] \/ es <> [] -> fold_left assign es acc <> [].
Proof.
  induction es as [|[n0 c0] es IH]; simpl; intros acc H.
  - destruct H as [H|H]; [exact H | now contradiction H].
  - apply IH. left. apply dict_set_nonempty.
Qed.

Lemma fold_assign_keys (es : list (str * str)) :
  forall acc,
    dict_keys (fold_left assign es acc)
    = dict_keys acc ++ first_occurrences (dict_keys acc) (map fst es).
Proof.
  induction es as [|[n0 c0] es IH]; simpl; intros acc.
  - now rewrite app_nil_r.
  - rewrite IH. unfold assign. cbn [fst snd]. rewrite dict_set_keys_eq.
    destruct (existsb (fun k => eqb k n0) (dict_keys acc)); [reflexivity|].
    now rewrite <- app_assoc.
Qed.

(* ================================================================== *)
(** ** What [rstrip] forgets *)

Lemma lstrip_app_strippable (chars pre s : str) :
  Forall (fun c => mem c chars = true) pre ->
  lstrip chars (pre ++ s) = lstrip chars s.
Proof.
  induction 1 as [|c pre Hc _ IH]; simpl; [reflexivity|]. now rewrite Hc.
Qed.

Lemma lstrip_idempotent (chars s : str) :
  lstrip chars (lstrip chars s) = lstrip chars s.
Proof.
  induction s as [|a s IH]; simpl; [reflexivity|].
  destruct (mem a chars) eqn:E; [exact IH|]. simpl. now rewrite E.
Qed.

Lemma rstrip_idempotent (chars s : str) :
  rstrip chars (rstrip chars s) = rstrip chars s.
Proof.
  unfold rstrip. now rewrite rev_involutive, lstrip_idempotent.
Qed.

Lemma rstrip_app_strippable (chars s tail : str) :
  Forall (fun c => mem c chars = true) tail ->
  rstrip chars (s ++ tail) = rstrip chars s.
Proof.
  intros H. unfold rstrip. rewrite rev_app_distr, lstrip_app_strippable.
  - reflexivity.
  - apply Forall_forall. intros c Hc. apply in_rev in Hc.
    revert c Hc. now apply Forall_forall.
Qed.

(* ================================================================== *)
(** ** Further properties of the table and of the resolver *)

(** X12.  The loaded table is non-empty exactly when the file could be
    read, every row has both the name and the adcode column, and at least
    one row has a non-empty name together with a non-empty adcode.  A file
    that cannot be read, or a single row without one of the columns, leaves
    an empty table even if other rows are fine. *)
Theorem table_nonempty_iff (w : world) :
  city_table w <> [] <->
  exists rows,
    city_codes_csv w = Some rows /\
    (forall row, In row rows -> row_has_columns row = true) /\
    csv_entries rows <> [].
Proof.
  unfold city_table. destruct (city_codes_csv w) as [rows|].
  2:{ split; [intros H; now contradiction H | intros (rows & H & _); discriminate]. }
  destruct (rows_columns_dec rows) as [Hcols|(row & Hin & Hrow)].
  - rewrite (load_rows_fold rows [] Hcols). split.
    + intros H. exists rows. split; [reflexivity|]. split; [exact Hcols|].
      intros He. rewrite He in H. now contradiction H.
    + intros (rows' & [= <-] & _ & He). apply fold_assign_nonempty. now right.
  - rewrite (load_rows_missing_column rows [] row Hin Hrow). split.
    + intros H. now contradiction H.
    + intros (rows' & [= <-] & Hcols & _). rewrite (Hcols row Hin) in Hrow.
      discriminate.
Qed.

(** X13.  When the file is read and every row has both columns, the
    entries of the table are assignments made by rows of the file; a name
    that several rows assign keeps the adcode of the last of them; a name
    no row assigns is absent. *)
Theorem table_contents (w : world) (rows : list csv_row) :
  city_codes_csv w = Some rows ->
  (forall row, In row rows -> row_has_columns row = true) ->
  (forall n c, In (n, c) (city_table w) -> In (n, c) (csv_entries rows)) /\
  (forall pre n c post,
      csv_entries rows = pre ++ (n, c) :: post ->
      (forall c', ~ In (n, c') post) ->
      dict_get (city_table w) n = Some c) /\
  (forall n, (forall c, ~ In (n, c) (csv_entries rows)) ->
             dict_get (city_table w) n = None).
Proof.
  intros Hcsv Hcols. unfold city_table. rewrite Hcsv, (load_rows_fold rows [] Hcols).
  split; [|split].
  - intros n c H. apply fold_assign_In in H as [[]|H]. exact H.
  - intros pre n c post He Hlast. rewrite He, fold_left_app. simpl.
    rewrite fold_assign_other by exact Hlast. apply dict_get_set_same.
  - intros n Hno. now rewrite fold_assign_other.
Qed.

(** X14.  Under the same conditions the keys of the table come in the
    order in which the names first occur in the file: a later row for a
    name already present changes its adcode and not its place.  This is the
    order in which the fuzzy step tries the entries. *)
Theorem table_key_order (w : world) (rows : list csv_row) :
  city_codes_csv w = Some rows ->
  (forall row, In row rows -> row_has_columns row = true) ->
  dict_keys (city_table w) = first_occurrences [] (map fst (csv_entries rows)).
Proof.
  intros Hcsv Hcols. unfold city_table. rewrite Hcsv, (load_rows_fold rows [] Hcols).
  apply fold_assign_keys.
Qed.

(** X15.  The name the resolver matches is canonical: it is a key of the
    loaded table stored with the returned code, it has the stripped form of
    the query, and resolving it again gives the same code and the same
    name, by the exact step. *)
Theorem resolved_name_is_canonical (w : world) (q code name : str) :
  resolve_city (city_table w) q = (Some code, name) ->
  In (name, code) (city_table w) /\
  rstrip suffix_chars name = rstrip suffix_chars q /\
  dict_get (city_table w) name = Some code /\
  resolve_city (city_table w) name = (Some code, name).
Proof.
  intros H. apply resolve_city_sound in H as [Hin Hs].
  assert (Hget : dict_get (city_table w) name = Some code).
  { apply dict_get_of_In; [exact (proj1 (city_table_ok w)) | exact Hin]. }
  split; [exact Hin|]. split; [exact Hs|]. split; [exact Hget|].
  now apply resolve_city_exact.
Qed.

(** X16.  Trailing '市', '区', '县' do not matter to the resolver: take any
    key of the loaded table, strip it, and append any run of these three
    characters (none, the original ones, or others); the query so obtained
    resolves to an entry with a non-empty code whose key has the same
    stripped form. *)
Theorem suffix_tolerance (w : world) (n tail : str) :
  In n (dict_keys (city_table w)) ->
  Forall (fun c => mem c suffix_chars = true) tail ->
  exists code name,
    resolve_city (city_table w) (rstrip suffix_chars n ++ tail) = (Some code, name) /\
    code <> [] /\
    In (name, code) (city_table w) /\
    rstrip suffix_chars name = rstrip suffix_chars n.
Proof.
  intros Hn Htail.
  assert (Hs : rstrip suffix_chars (rstrip suffix_chars n ++ tail)
               = rstrip suffix_chars n).
  { now rewrite rstrip_app_strippable, rstrip_idempotent. }
  destruct (resolve_city (city_table w) (rstrip suffix_chars n ++ tail))
    as [adcode name] eqn:Hres.
  destruct (truthy_opt adcode) eqn:Hcode.
  - apply truthy_opt_true in Hcode as (code & -> & Hcode).
    exists code, name. split; [reflexivity|]. split; [exact Hcode|].
    apply resolve_city_sound in Hres as [Hin Hname].
    split; [exact Hin|]. now rewrite Hname.
  - exfalso.
    assert (Hf : truthy_opt
                   (fst (resolve_city (city_table w) (rstrip suffix_chars n ++ tail)))
                 = false) by now rewrite Hres.
    apply (proj1 (resolve_city_fails_iff w _) Hf n Hn). now rewrite Hs.
Qed.

Lemma py_index0_raises (v : pyval) (e : exn) :
  py_index0 v = inl e -> exists msg, e = OtherException msg.
Proof.
  destruct v as [| | | |[|c s]|[|x l]|d]; simpl; intros [= <-]; eexists; reflexivity.
Qed.

Section Payload.
Variable py_repr : pyval -> str.

(** X17.  After a [status] "1" answer, the code [NO_DATA] is returned
    exactly when the list of the mode ([lives] for "base", [forecasts] for
    "all") is missing or falsy: not only an empty list but also [null], an
    empty string, zero, [false] or an empty object. *)
Theorem no_data_iff (w : world) (city_name extensions : pyval)
    (r : request) (resp : response) (body : pydict) (field : str) :
  performs_request (get_weather py_repr w city_name extensions) r ->
  requests_get w r = inr resp ->
  raise_for_status resp = None ->
  json resp = inr (PDict body) ->
  dict_get body (lit "status") = Some (PStr (lit "1")) ->
  (extensions = PStr (lit "base") /\ field = lit "lives") \/
  (extensions = PStr (lit "all") /\ field = lit "forecasts") ->
  let payload := match dict_get body field with Some v => v | None => PList [] end in
  error_code (fst (get_weather py_repr w city_name extensions))
  = Some (PStr (lit "NO_DATA"))
  <-> truthy payload = false.
Proof.
  intros Hr Hget Hraise Hjson Hstatus Hfield payload.
  apply get_weather_request_inv in Hr
    as (key & q & code & name & Hkey & Hk & -> & Hq & Hext & Hres & Hcode & ->).
  rewrite (get_weather_resolved py_repr w q extensions key code name) by assumption.
  rewrite Hget. unfold bindE at 1, fst. rewrite Hraise, Hjson.
  unfold bindE at 1.
  unfold shape_response, result_get, bindE. rewrite Hstatus.
  cbn [py_eq_str].
  replace (eqb (lit "1") (lit "1")) with true by reflexivity.
  cbn [negb].
  destruct Hfield as [[-> ->]|[-> ->]].
  - replace (py_eq_str (PStr (lit "base")) (lit "base")) with true by reflexivity.
    fold payload. destruct (truthy payload); cbn [negb].
    + split; [|discriminate]. intros H.
      destruct (py_index0 payload) as [e|data] eqn:Hidx; [|discriminate H].
      apply py_index0_raises in Hidx as (msg & ->). discriminate H.
    + split; reflexivity.
  - replace (py_eq_str (PStr (lit "all")) (lit "base")) with false by reflexivity.
    fold payload. destruct (truthy payload); cbn [negb].
    + split; [|discriminate]. intros H.
      destruct (py_index0 payload) as [e|data] eqn:Hidx; [|discriminate H].
      apply py_index0_raises in Hidx as (msg & ->). discriminate H.
    + split; reflexivity.
Qed.
End Payload.

(* ================================================================== *)
(** ** The further properties at sample inputs *)

(** The sample file with repeated names, as loaded: "朝阳区" stays first
    and carries the adcode of its last row. *)
Example sample_file_table :
  city_table SampleFile.world
  = [ (lit "朝阳区", lit "220104"); (lit "上海市", lit "310000");
      (lit "朝阳市", lit "211300") ].
Proof. reflexivity. Qed.

(** X9 at "上海" in mode "all". *)
Lemma request_content_witness :
  performs_request
    (get_weather Sample.repr (Sample.world_with Sample.times_out)
       (PStr (lit "上海")) (PStr (lit "all")))
    (api_request (lit "310000") (PStr (lit "all")) Sample.api_key) /\
  exists key name code,
    In (name, code) (city_table (Sample.world_with Sample.times_out)) /\
    api_request (lit "310000") (PStr (lit "all")) Sample.api_key
    = {| req_url := lit "https://restapi.amap.com/v3/weather/weatherInfo";
         req_params := [ (lit "key", PStr key); (lit "city", PStr code);
                         (lit "extensions", PStr (lit "all"));
                         (lit "output", PStr (lit "JSON")) ];
         req_timeout := 10 |}.
Proof.
  assert (Hr : performs_request
                 (get_weather Sample.repr (Sample.world_with Sample.times_out)
                    (PStr (lit "上海")) (PStr (lit "all")))
                 (api_request (lit "310000") (PStr (lit "all")) Sample.api_key)).
  { right. left. reflexivity. }
  split; [exact Hr|].
  destruct (request_content Sample.repr _ _ _ _ Hr)
    as (key & name & code & _ & _ & Hin & _ & _ & E).
  now exists key, name, code.
Defined.

(** X10 at the success scenario of the specification. *)
Lemma success_requires_witness :
  dict_get
    (fst (get_weather Sample.repr (Sample.world_with (Sample.answers Sample.body_ok))
            (PStr (lit "北京市")) (PStr (lit "base"))))
    (lit "success") = Some (PBool true) /\
  exists r resp body,
    snd (get_weather Sample.repr (Sample.world_with (Sample.answers Sample.body_ok))
           (PStr (lit "北京市")) (PStr (lit "base")))
    = [EvLoadCityCodes; EvHttpGet r] /\
    requests_get (Sample.world_with (Sample.answers Sample.body_ok)) r = inr resp /\
    json resp = inr (PDict body) /\
    dict_get body (lit "status") = Some (PStr (lit "1")).
Proof.
  split; [reflexivity|].
  destruct (success_requires Sample.repr
              (Sample.world_with (Sample.answers Sample.body_ok))
              (PStr (lit "北京市")) (PStr (lit "base")) eq_refl)
    as (r & resp & body & Htr & Hget & _ & Hjson & Hstatus & _).
  now exists r, resp, body.
Defined.

(** X11 at a provider that answers with a JSON array. *)
Lemma unexpected_error_witness :
  performs_request
    (get_weather Sample.repr (Sample.world_with (Sample.answers (PList [])))
       (PStr (lit "北京市")) (PStr (lit "base")))
    (api_request (lit "110000") (PStr (lit "base")) Sample.api_key) /\
  exists msg,
    fst (get_weather Sample.repr (Sample.world_with (Sample.answers (PList [])))
           (PStr (lit "北京市")) (PStr (lit "base")))
    = failure (lit "未知错误: " ++ msg) (lit "UNEXPECTED_ERROR").
Proof.
  assert (Hr : performs_request
                 (get_weather Sample.repr
                    (Sample.world_with (Sample.answers (PList [])))
                    (PStr (lit "北京市")) (PStr (lit "base")))
                 (api_request (lit "110000") (PStr (lit "base")) Sample.api_key)).
  { right. left. reflexivity. }
  split; [exact Hr|].
  destruct (unexpected_error Sample.repr _ _ _ _ Hr) as (_ & _ & Hbody).
  apply (Hbody _ (PList []) eq_refl eq_refl eq_refl). discriminate.
Defined.

(** X13 on the sample file: "朝阳区" is assigned twice and keeps the
    second adcode. *)
Lemma table_contents_witness :
  city_codes_csv SampleFile.world = Some SampleFile.rows /\
  (forall row, In row SampleFile.rows -> row_has_columns row = true) /\
  dict_get (city_table SampleFile.world) (lit "朝阳区") = Some (lit "220104").
Proof.
  assert (Hcols : forall row, In row SampleFile.rows -> row_has_columns row = true).
  { intros row [<-|[<-|[<-|[<-|[<-|[]]]]]]; reflexivity. }
  split; [reflexivity|]. split; [exact Hcols|].
  destruct (table_contents SampleFile.world SampleFile.rows eq_refl Hcols)
    as (_ & Hlast & _).
  apply (Hlast [ (lit "朝阳区", lit "110105"); (lit "上海市", lit "310000") ]
           (lit "朝阳区") (lit "220104") [ (lit "朝阳市", lit "211300") ]).
  - reflexivity.
  - intros c' [H|[]]. discriminate.
Defined.

(** X14 on the sample file. *)
Lemma table_key_order_witness :
  city_codes_csv SampleFile.world = Some SampleFile.rows /\
  (forall row, In row SampleFile.rows -> row_has_columns row = true) /\
  dict_keys (city_table SampleFile.world)
  = first_occurrences []
      [ lit "朝阳区"; lit "上海市"; lit "朝阳区"; lit "朝阳市" ].
Proof.
  assert (Hcols : forall row, In row SampleFile.rows -> row_has_columns row = true).
  { intros row [<-|[<-|[<-|[<-|[<-|[]]]]]]; reflexivity. }
  split; [reflexivity|]. split; [exact Hcols|].
  exact (table_key_order SampleFile.world SampleFile.rows eq_refl Hcols).
Defined.

(** X15 at "朝阳": the matched name "朝阳区" resolves to itself. *)
Lemma resolved_name_is_canonical_witness :
  resolve_city (city_table (Sample.world_with Sample.times_out)) (lit "朝阳")
  = (Some (lit "110105"), lit "朝阳区") /\
  resolve_city (city_table (Sample.world_with Sample.times_out)) (lit "朝阳区")
  = (Some (lit "110105"), lit "朝阳区").
Proof.
  split; [reflexivity|].
  exact (proj2 (proj2 (proj2
           (resolved_name_is_canonical (Sample.world_with Sample.times_out)
              (lit "朝阳") (lit "110105") (lit "朝阳区") eq_refl)))).
Defined.

(** X16 at the key "上海市" written with the wrong suffix, "上海县区". *)
Lemma suffix_tolerance_witness :
  In (lit "上海市") (dict_keys (city_table (Sample.world_with Sample.times_out))) /\
  Forall (fun c => mem c suffix_chars = true) (lit "县区") /\
  exists code name,
    resolve_city (city_table (Sample.world_with Sample.times_out)) (lit "上海县区")
    = (Some code, name) /\
    rstrip suffix_chars name = rstrip suffix_chars (lit "上海市").
Proof.
  assert (Hin : In (lit "上海市")
                  (dict_keys (city_table (Sample.world_with Sample.times_out)))).
  { right. right. left. reflexivity. }
  assert (Htail : Forall (fun c => mem c suffix_chars = true) (lit "县区")).
  { repeat constructor. }
  split; [exact Hin|]. split; [exact Htail|].
  destruct (suffix_tolerance (Sample.world_with Sample.times_out)
              (lit "上海市") (lit "县区") Hin Htail)
    as (code & name & Hres & _ & _ & Hname).
  now exists code, name.
Defined.

(** X17 at a body whose [lives] is [null]. *)
Lemma no_data_iff_witness :
  performs_request
    (get_weather Sample.repr
       (Sample.world_with
          (Sample.answers
             (PDict [ (lit "status", PStr (lit "1")); (lit "lives", PNone) ])))
       (PStr (lit "北京市")) (PStr (lit "base")))
    (api_request (lit "110000") (PStr (lit "base")) Sample.api_key) /\
  error_code
    (fst (get_weather Sample.repr
            (Sample.world_with
               (Sample.answers
                  (PDict [ (lit "status", PStr (lit "1")); (lit "lives", PNone) ])))
            (PStr (lit "北京市")) (PStr (lit "base"))))
  = Some (PStr (lit "NO_DATA")).
Proof.
  assert (Hr : performs_request
                 (get_weather Sample.repr
                    (Sample.world_with
                       (Sample.answers
                          (PDict [ (lit "status", PStr (lit "1"));
                                   (lit "lives", PNone) ])))
                    (PStr (lit "北京市")) (PStr (lit "base")))
                 (api_request (lit "110000") (PStr (lit "base")) Sample.api_key)).
  { right. left. reflexivity. }
  split; [exact Hr|].
  apply (proj2 (no_data_iff Sample.repr _ _ _ _ _ _ (lit "lives")
                  Hr eq_refl eq_refl eq_refl eq_refl
                  (or_introl (conj eq_refl eq_refl)))).
  reflexivity.
Defined.

Section Canonical.
Variable py_repr : pyval -> str.

(** X18.  The [city_name] of a success is always a key of the loaded
    table, as stored: it has the stripped form of the query, and it is the
    query itself whenever the query is a key. *)
Theorem success_city_name_is_key (w : world) (city_name extensions : pyval) :
  dict_get (fst (get_weather py_repr w city_name extensions)) (lit "success")
  = Some (PBool true) ->
  exists q name code,
    city_name = PStr q /\
    dict_get (fst (get_weather py_repr w city_name extensions)) (lit "city_name")
    = Some (PStr name) /\
    In (name, code) (city_table w) /\
    rstrip suffix_chars name = rstrip suffix_chars q /\
    (In q (dict_keys (city_table w)) -> name = q).
Proof.
  intros Hsucc.
  destruct (get_weather_variant py_repr w city_name extensions)
    as [(Hf & _)|(_ & q & code & name & -> & Hres & Hname)]; [congruence|].
  exists q, name, code. split; [reflexivity|]. split; [exact Hname|].
  destruct (resolve_city_sound _ _ _ _ Hres) as [Hin Hs].
  split; [exact Hin|]. split; [exact Hs|].
  intros Hq.
  destruct (dict_get (city_table w) q) as [c|] eqn:Hget.
  - rewrite (resolve_city_exact w q c Hget) in Hres. now injection Hres.
  - apply dict_get_None in Hget. contradiction.
Qed.
End Canonical.

(** X18 at "上海" in mode "all": the success names "上海市". *)
Lemma success_city_name_is_key_witness :
  dict_get
    (fst (get_weather Sample.repr (Sample.world_with (Sample.answers Sample.body_ok))
            (PStr (lit "上海")) (PStr (lit "all"))))
    (lit "success") = Some (PBool true) /\
  dict_get
    (fst (get_weather Sample.repr (Sample.world_with (Sample.answers Sample.body_ok))
            (PStr (lit "上海")) (PStr (lit "all"))))
    (lit "city_name") = Some (PStr (lit "上海市")) /\
  exists name code,
    In (name, code) (city_table (Sample.world_with (Sample.answers Sample.body_ok))) /\
    rstrip suffix_chars name = rstrip suffix_chars (lit "上海").
Proof.
  split; [reflexivity|]. split; [reflexivity|].
  destruct (success_city_name_is_key Sample.repr
              (Sample.world_with (Sample.answers Sample.body_ok))
              (PStr (lit "上海")) (PStr (lit "all")) eq_refl)
    as (q & name & code & Hq & _ & Hin & Hs & _).
  injection Hq as <-. now exists name, code.
Defined.
